(** * pi-ina219: the INA219 battery monitor driver (src/ina219.c)

    A shallow embedding of the driver "class" of ina219.c, of the demo
    main.c and of the part of the Linux I2C character device they talk to,
    followed by the properties of the register transport, of the two
    voltage decoders, of the battery status estimator, of the transport
    handle and of the demo.

    Conventions of the embedding.
    - A C [int] is a [Z] in [INT_MIN, INT_MAX]; an operation whose
      mathematical result leaves that range, or a division by zero, is
      undefined behaviour and stops the run ([Stop Undefined]).
    - [int16_t] is a [Z] in [-32768, 32767]; the conversion from [int]
      wraps (two's complement, as on every Linux target).
    - [double] is IEEE 754 binary64, through the specification floats of
      the standard library ([SFdiv 53 1024]).
    - System calls are answered by an oracle held in the kernel state; every
      call is recorded in a trace.
    - Output parameters of [ina219_get_status] are cells of the caller's
      frame; [None] is a cell that has not been written. *)

From Stdlib Require Import ZArith List String Ascii Bool Lia.
From Stdlib.Strings Require Import Byte.
From Stdlib Require Import Floats.SpecFloat.
Import ListNotations.
Open Scope Z_scope.

(* ====================================================================== *)
(** ** C arithmetic *)
(* ====================================================================== *)

Module CArith.

Definition INT_MIN : Z := - 2 ^ 31.
Definition INT_MAX : Z := 2 ^ 31 - 1.

Definition in_int (z : Z) : bool := (INT_MIN <=? z) && (z <=? INT_MAX).

(** The value of an [int] expression, or [None] on signed overflow. *)
Definition checked (z : Z) : option Z := if in_int z then Some z else None.

Definition c_sub (a b : Z) : option Z := checked (a - b).
Definition c_mul (a b : Z) : option Z := checked (a * b).
Definition c_neg (a : Z) : option Z := checked (- a).

(** [a / b] on [int]: truncation toward zero (C99 6.5.5); undefined for a
    zero divisor and for [INT_MIN / -1]. *)
Definition c_div (a b : Z) : option Z :=
  if b =? 0 then None else checked (Z.quot a b).

(** Conversion of an [int] to [int16_t]. *)
Definition to_int16 (z : Z) : Z := (z + 2 ^ 15) mod 2 ^ 16 - 2 ^ 15.

(** An [unsigned char] promoted to [int]. *)
Definition byte_val (b : byte) : Z := Z.of_N (Byte.to_N b).

(** *** double *)

Definition double : Type := spec_float.

Definition double_of_int (z : Z) : double := binary_normalize 53 1024 z 0 false.

Definition double_div (x y : double) : double := SFdiv 53 1024 x y.

(** Conversion of a [double] to [int]: the fractional part is discarded;
    undefined when the integral part is not an [int] (C99 6.3.1.4), which
    includes the infinities and NaN. *)
Definition int_of_double (x : double) : option Z :=
  match x with
  | S754_zero _ => Some 0
  | S754_finite s m e =>
      let mag := if 0 <=? e then Z.pos m * 2 ^ e else Z.pos m / 2 ^ (- e) in
      checked (if s then - mag else mag)
  | S754_infinity _ | S754_nan => None
  end.

End CArith.
Import CArith.

(* ====================================================================== *)
(** ** The I2C character device, as the driver sees it *)
(* ====================================================================== *)

Module Linux.

(** What the kernel answers to one system call: failure ([-1], with the
    [errno] it sets) or a non-negative result.  For [read] the result comes
    with the two bytes the device holds ready; for the other calls the
    bytes are ignored. *)
Inductive Reply : Type :=
| Fail (e : Z)
| Ok (n : N) (payload : byte * byte).

Inductive Event : Type :=
| SysOpen (path : string)
| SysIoctlSlave (fd addr : Z)
| SysWrite (fd : Z) (b : byte)
| SysRead (fd count : Z)
| SysClose (fd : Z).

(** The kernel side: the oracle (indexed by the number of calls made so
    far), the calls made (newest first), [errno], the table of open
    descriptors with the slave address bound to each, and the message table
    of [strerror]. *)
Record Kernel : Type := mkKernel
  { oracle : nat -> Reply;
    trace : list Event;
    errno : Z;
    fds : list (Z * option Z);
    strerror : Z -> string }.

Definition next_reply (k : Kernel) : Reply := oracle k (List.length (trace k)).

Definition log (ev : Event) (k : Kernel) : Kernel :=
  mkKernel (oracle k) (ev :: trace k) (errno k) (fds k) (strerror k).

Definition set_errno (e : Z) (k : Kernel) : Kernel :=
  mkKernel (oracle k) (trace k) e (fds k) (strerror k).

Definition set_fds (t : list (Z * option Z)) (k : Kernel) : Kernel :=
  mkKernel (oracle k) (trace k) (errno k) t (strerror k).

Fixpoint fd_lookup (fd : Z) (t : list (Z * option Z)) : option (option Z) :=
  match t with
  | [] => None
  | (d, b) :: t' => if d =? fd then Some b else fd_lookup fd t'
  end.

Fixpoint fd_remove (fd : Z) (t : list (Z * option Z)) : list (Z * option Z) :=
  match t with
  | [] => []
  | (d, b) :: t' => if d =? fd then fd_remove fd t' else (d, b) :: fd_remove fd t'
  end.

(** [open (path, O_RDWR)]: a new descriptor, or [-1]. *)
Definition sys_open (path : string) (k : Kernel) : Z * Kernel :=
  match next_reply k with
  | Fail e => (-1, set_errno e (log (SysOpen path) k))
  | Ok n _ =>
      let k1 := log (SysOpen path) k in
      (Z.of_N n, set_fds ((Z.of_N n, None) :: fds k1) k1)
  end.

(** [ioctl (fd, I2C_SLAVE, addr)]: binds the slave address, or [-1]. *)
Definition sys_ioctl_slave (fd addr : Z) (k : Kernel) : Z * Kernel :=
  match next_reply k with
  | Fail e => (-1, set_errno e (log (SysIoctlSlave fd addr) k))
  | Ok _ _ =>
      let k1 := log (SysIoctlSlave fd addr) k in
      (0, set_fds ((fd, Some addr) :: fd_remove fd (fds k1)) k1)
  end.

(** [write (fd, buf, 1)]: the number of bytes written (0 or 1), or [-1]. *)
Definition sys_write1 (fd : Z) (b : byte) (k : Kernel) : Z * Kernel :=
  match next_reply k with
  | Fail e => (-1, set_errno e (log (SysWrite fd b) k))
  | Ok n _ => (Z.min (Z.of_N n) 1, log (SysWrite fd b) k)
  end.

(** [read (fd, buf, 2)]: the number of bytes read (0, 1 or 2), or [-1], and
    the buffer afterwards: only the bytes read are stored. *)
Definition sys_read2 (fd : Z) (buf : byte * byte) (k : Kernel)
  : Z * (byte * byte) * Kernel :=
  match next_reply k with
  | Fail e => (-1, buf, set_errno e (log (SysRead fd 2) k))
  | Ok n p =>
      let got := Z.min (Z.of_N n) 2 in
      let buf' := if got =? 2 then p
                  else if got =? 1 then (fst p, snd buf) else buf in
      (got, buf', log (SysRead fd 2) k)
  end.

(** [close (fd)]. *)
Definition sys_close (fd : Z) (k : Kernel) : Kernel :=
  let k1 := log (SysClose fd) k in set_fds (fd_remove fd (fds k1)) k1.

End Linux.
Import Linux.

(* ====================================================================== *)
(** ** Program state and the monad of the driver's functions *)
(* ====================================================================== *)

(** ina219.h *)
Definition INA_FULL_PERCENT : Z := 99.

Inductive INA219ChargeStatus : Type :=
| INA219_FULLY_CHARGED
| INA219_CHARGING
| INA219_DISCHARGING.

Definition status_eqb (a b : INA219ChargeStatus) : bool :=
  match a, b with
  | INA219_FULLY_CHARGED, INA219_FULLY_CHARGED => true
  | INA219_CHARGING, INA219_CHARGING => true
  | INA219_DISCHARGING, INA219_DISCHARGING => true
  | _, _ => false
  end.

(** ina219.c: registers used. *)
Definition SHUNT_REG : byte := x01.
Definition BUS_REG : byte := x02.

(** [struct _INA219]. *)
Record INA219 : Type := mkINA219
  { i2c_dev : string;
    i2c_addr : Z;
    fd : Z;
    shunt_milliohms : Z;
    battery_voltage_0_percent : Z;
    battery_voltage_100_percent : Z;
    battery_capacity : Z;
    min_charging_current : Z }.

Definition with_fd (d : Z) (o : INA219) : INA219 :=
  mkINA219 (i2c_dev o) (i2c_addr o) d (shunt_milliohms o)
           (battery_voltage_0_percent o) (battery_voltage_100_percent o)
           (battery_capacity o) (min_charging_current o).

(** The caller's variables that [ina219_get_status] receives by address,
    and the caller's [char *error]: the strings assigned to it so far,
    newest first. *)
Record Frame : Type := mkFrame
  { charge_status : option INA219ChargeStatus;
    battery_voltage_mv : option Z;
    percent_charged : option Z;
    battery_current_mA : option Z;
    minutes : option Z;
    error_msgs : list string }.

(** The [char **error] argument: [NULL], or the address of the caller's
    [error]. *)
Inductive ErrArg : Type := ErrNull | ErrCell.

Record State : Type := mkState
  { kernel : Kernel;
    self : INA219;
    frame : Frame }.

Inductive Crash : Type := AssertFailed | Undefined.

Inductive Outcome (A : Type) : Type :=
| Done (a : A) (s : State)
| Stop (c : Crash).
Arguments Done {A} a s.
Arguments Stop {A} c.

Definition M (A : Type) : Type := State -> Outcome A.

Definition ret {A} (a : A) : M A := fun s => Done a s.

Definition bind {A B} (m : M A) (f : A -> M B) : M B :=
  fun s => match m s with
           | Done a s' => f a s'
           | Stop c => Stop c
           end.

Declare Scope c_scope.
Delimit Scope c_scope with c.
Notation "x <- m ;; k" := (bind m (fun x => k))
  (at level 61, m at next level, right associativity) : c_scope.
Notation "' p <- m ;; k" := (bind m (fun x => let 'p := x in k))
  (at level 61, p pattern, m at next level, right associativity) : c_scope.
Notation "m ;; k" := (bind m (fun _ => k))
  (at level 61, right associativity) : c_scope.
Open Scope c_scope.

Definition crash {A} (c : Crash) : M A := fun _ => Stop c.

Definition assert (b : bool) : M unit :=
  if b then ret tt else crash AssertFailed.

(** An [int] expression that may be undefined. *)
Definition eval (e : option Z) : M Z :=
  match e with Some z => ret z | None => crash Undefined end.

Definition get_self : M INA219 := fun s => Done (self s) s.

Definition set_self_fd (d : Z) : M unit :=
  fun s => Done tt (mkState (kernel s) (with_fd d (self s)) (frame s)).

Definition syscall {A} (f : Kernel -> A * Kernel) : M A :=
  fun s => let (a, k) := f (kernel s) in Done a (mkState k (self s) (frame s)).

Definition strerror_errno : M string :=
  fun s => Done (strerror (kernel s) (errno (kernel s))) s.

Definition update_frame (f : Frame -> Frame) : M unit :=
  fun s => Done tt (mkState (kernel s) (self s) (f (frame s))).

(** Reading a caller's cell through its pointer; a cell never written
    holds no value. *)
Definition load {A} (cell : Frame -> option A) : M A :=
  fun s => match cell (frame s) with
           | Some v => Done v s
           | None => Stop Undefined
           end.

Definition store_charge_status (v : INA219ChargeStatus) : M unit :=
  update_frame (fun f => mkFrame (Some v) (battery_voltage_mv f)
    (percent_charged f) (battery_current_mA f) (minutes f) (error_msgs f)).

Definition store_battery_voltage_mv (v : Z) : M unit :=
  update_frame (fun f => mkFrame (charge_status f) (Some v)
    (percent_charged f) (battery_current_mA f) (minutes f) (error_msgs f)).

Definition store_percent_charged (v : Z) : M unit :=
  update_frame (fun f => mkFrame (charge_status f) (battery_voltage_mv f)
    (Some v) (battery_current_mA f) (minutes f) (error_msgs f)).

Definition store_battery_current_mA (v : Z) : M unit :=
  update_frame (fun f => mkFrame (charge_status f) (battery_voltage_mv f)
    (percent_charged f) (Some v) (minutes f) (error_msgs f)).

Definition store_minutes (v : Z) : M unit :=
  update_frame (fun f => mkFrame (charge_status f) (battery_voltage_mv f)
    (percent_charged f) (battery_current_mA f) (Some v) (error_msgs f)).

Definition store_error (msg : string) : M unit :=
  update_frame (fun f => mkFrame (charge_status f) (battery_voltage_mv f)
    (percent_charged f) (battery_current_mA f) (minutes f)
    (msg :: error_msgs f)).

(** [asprintf (error, fmt, strerror (errno))], where [fmt] is [pre],
    ["%s"], [post]. Writing through a null [error] is undefined. *)
Definition asprintf (error : ErrArg) (pre post : string) : M unit :=
  match error with
  | ErrNull => crash Undefined
  | ErrCell => (msg <- strerror_errno ;; store_error (pre ++ msg ++ post))
  end.

(** [if (error) asprintf (error, ...)]. *)
Definition asprintf_if (error : ErrArg) (pre post : string) : M unit :=
  match error with
  | ErrNull => ret tt
  | ErrCell => asprintf error pre post
  end.

Definition newline : string := String (ascii_of_nat 10) EmptyString.

(* ====================================================================== *)
(** ** ina219.c *)
(* ====================================================================== *)

(** [ina219_register_read_16]: [Some data] stands for [TRUE] with [*data]
    assigned, [None] for [FALSE] with [*data] untouched. *)
Definition ina219_register_read_16 (reg : byte) (error : ErrArg)
  : M (option Z) :=
  o <- get_self ;;
  assert (0 <=? fd o) ;;
  let buff : byte * byte := (reg, x00) in
  w <- syscall (sys_write1 (fd o) (fst buff)) ;;
  if negb (w =? 0) then
    '(r, buff) <- syscall (sys_read2 (fd o) buff) ;;
    if r =? 2 then
      ret (Some (to_int16
                   (Z.lor (Z.shiftl (byte_val (fst buff)) 8)
                          (byte_val (snd buff)))))
    else
      (asprintf_if error "Failed to read I2C device: " newline ;;
       ret None)
  else
    (asprintf_if error "Failed to write I2C device: " newline ;;
     ret None).

(** [ina219_get_bus_voltage]: [Some mv] for [TRUE]. *)
Definition ina219_get_bus_voltage (error : ErrArg) : M (option Z) :=
  r <- ina219_register_read_16 BUS_REG error ;;
  match r with
  | Some regval => ret (Some (Z.shiftr (Z.land regval 0xFFF8) 1))
  | None => ret None
  end.

(** [ina219_get_shunt_voltage]: [Some mv] for [TRUE]. *)
Definition ina219_get_shunt_voltage (error : ErrArg) : M (option Z) :=
  r <- ina219_register_read_16 SHUNT_REG error ;;
  match r with
  | Some regval => ret (Some (Z.quot regval 100))
  | None => ret None
  end.

Definition ina219_create (dev : string) (addr shunt v0 v100 cap minc : Z)
  : INA219 :=
  mkINA219 dev addr (-1) shunt v0 v100 cap minc.

Definition ina219_init (error : ErrArg) : M bool :=
  o <- get_self ;;
  d <- syscall (sys_open (i2c_dev o)) ;;
  set_self_fd d ;;
  if 0 <=? d then
    r <- syscall (sys_ioctl_slave d (i2c_addr o)) ;;
    if 0 <=? r then ret true
    else (asprintf error "Can't intialize I2C device: " "" ;; ret false)
  else
    (asprintf error "Can't open I2C device: " "" ;; ret false).

Definition ina219_uninit : M unit :=
  o <- get_self ;;
  (if 0 <=? fd o then syscall (fun k => (tt, sys_close (fd o) k))
   else ret tt) ;;
  set_self_fd (-1).

(** [100 * (mv - v0) / (v100 - v0)] on [int]. *)
Definition percent_expr (o : INA219) (mv : Z) : option Z :=
  match c_sub mv (battery_voltage_0_percent o),
        c_sub (battery_voltage_100_percent o) (battery_voltage_0_percent o) with
  | Some d, Some w =>
      match c_mul 100 d with
      | Some n => c_div n w
      | None => None
      end
  | _, _ => None
  end.

(** [mv * 1000 / self->shunt_milliohms] on [int]. *)
Definition current_expr (o : INA219) (mv : Z) : option Z :=
  match c_mul mv 1000 with
  | Some n => c_div n (shunt_milliohms o)
  | None => None
  end.

(** [pc * self->battery_capacity / 100] on [int]. *)
Definition capacity_expr (o : INA219) (pc : Z) : option Z :=
  match c_mul pc (battery_capacity o) with
  | Some n => c_div n 100
  | None => None
  end.

(** [int sec = 3600 * remaining_capacity / (double) mA]: the product is an
    [int], the quotient a [double], converted back to [int]. *)
Definition seconds_expr (remaining_capacity mA : Z) : option Z :=
  match c_mul 3600 remaining_capacity with
  | Some n => int_of_double (double_div (double_of_int n) (double_of_int mA))
  | None => None
  end.

(** Lines 241-319 of [ina219_get_status]: what it does once the bus
    voltage [mv] has been read.  [o] is [*self]. *)
Definition status_with_bus_voltage (o : INA219) (mv : Z) (error : ErrArg)
  : M bool :=
  store_battery_voltage_mv mv ;;
  p <- eval (percent_expr o mv) ;;
  store_percent_charged p ;;
  p <- load percent_charged ;;
  (if 100 <? p then store_percent_charged 100 else ret tt) ;;
  p <- load percent_charged ;;
  (if p <? 0 then store_percent_charged 0 else ret tt) ;;
  r <- ina219_get_shunt_voltage error ;;
  match r with
  | Some mv =>
      mA <- eval (current_expr o mv) ;;
      store_battery_current_mA mA ;;
      p <- load percent_charged ;;
      (if (INA_FULL_PERCENT <=? p) || (mA <? min_charging_current o)
       then store_charge_status INA219_FULLY_CHARGED
       else if 0 <? mA
            then store_charge_status INA219_CHARGING
            else store_charge_status INA219_DISCHARGING) ;;
      st <- load charge_status ;;
      (if status_eqb st INA219_FULLY_CHARGED then store_minutes 0
       else if 0 <=? mA then
         p <- load percent_charged ;;
         q <- eval (c_sub 100 p) ;;
         remaining_capacity <- eval (capacity_expr o q) ;;
         sec <- eval (seconds_expr remaining_capacity mA) ;;
         store_minutes (Z.quot sec 60)
       else
         p <- load percent_charged ;;
         remaining_capacity <- eval (capacity_expr o p) ;;
         n <- eval (c_neg mA) ;;
         sec <- eval (seconds_expr remaining_capacity n) ;;
         store_minutes (Z.quot sec 60)) ;;
      ret true
  | None => ret false
  end.

Definition ina219_get_status (error : ErrArg) : M bool :=
  o <- get_self ;;
  r <- ina219_get_bus_voltage error ;;
  match r with
  | Some mv => status_with_bus_voltage o mv error
  | None => ret false
  end.

(* ====================================================================== *)
(** ** main.c *)
(* ====================================================================== *)

Definition I2C_ADDR : Z := 0x42.
Definition I2C_DEV : string := "/dev/i2c-1".
Definition BATTERY_VOLTAGE_100_PERCENT : Z := 8260.
Definition BATTERY_VOLTAGE_0_PERCENT : Z := 6000.
Definition BATTERY_CAPACITY : Z := 2400.
Definition MIN_CHARGING_CURRENT : Z := 10.
Definition SHUNT_MILLIOHMS : Z := 100.

(** A call of [printf] or [fprintf]: the stream, the format and the
    arguments.  The text is not rendered. *)
Inductive Stream : Type := Stdout | Stderr.

Inductive Arg : Type :=
| ArgInt (z : Z)
| ArgDouble (x : double)
| ArgString (s : string).

Record Print : Type := mkPrint
  { stream : Stream;
    format : string;
    args : list Arg }.

(** [ina219 = ina219_create (...)]. *)
Definition set_self (o : INA219) : M unit :=
  fun s => Done tt (mkState (kernel s) o (frame s)).

(** The value of the caller's [error]; passing a null pointer for ["%s"]
    is undefined. *)
Definition load_error : M string :=
  fun s => match error_msgs (frame s) with
           | msg :: _ => Done msg s
           | [] => Stop Undefined
           end.

(** [main]: its exit status and its calls of [printf] and [fprintf], in
    order.  The locals [charge_status], [mV], [percent_charged],
    [battery_current_mA], [minutes] and [error] are the cells of the
    frame; [free] is not modelled. *)
Definition main (argv0 : string) : M (Z * list Print) :=
  set_self (ina219_create I2C_DEV I2C_ADDR SHUNT_MILLIOHMS
              BATTERY_VOLTAGE_0_PERCENT BATTERY_VOLTAGE_100_PERCENT
              BATTERY_CAPACITY MIN_CHARGING_CURRENT) ;;
  update_frame (fun _ => mkFrame None None None None None []) ;;
  ok <- ina219_init ErrCell ;;
  if ok then
    ok <- ina219_get_status ErrCell ;;
    if ok then
      st <- load charge_status ;;
      first <- match st with
               | INA219_FULLY_CHARGED =>
                   ret (mkPrint Stdout ("Fully charged" ++ newline) [])
               | INA219_CHARGING =>
                   m <- load minutes ;;
                   ret (mkPrint Stdout
                          ("Charging, %d minutes until fully charged" ++ newline)
                          [ArgInt m])
               | INA219_DISCHARGING =>
                   m <- load minutes ;;
                   ret (mkPrint Stdout
                          ("Discharging, %d minutes left" ++ newline)
                          [ArgInt m])
               end ;;
      mV <- load battery_voltage_mv ;;
      mA <- load battery_current_mA ;;
      p <- load percent_charged ;;
      ret (0, [first;
               mkPrint Stdout ("Battery voltage: %.2f V" ++ newline)
                 [ArgDouble (double_div (double_of_int mV) (double_of_int 1000))];
               mkPrint Stdout ("Battery current: %d mA" ++ newline) [ArgInt mA];
               mkPrint Stdout ("Battery charge: %.d %%" ++ newline) [ArgInt p]])
    else
      (msg <- load_error ;;
       ret (0, [mkPrint Stderr ("%s: %s" ++ newline)
                  [ArgString argv0; ArgString msg]]))
  else
    (msg <- load_error ;;
     ret (0, [mkPrint Stderr ("Can't set up INA219: %s" ++ newline)
                [ArgString msg]])).

(* ====================================================================== *)
(** ** Vocabulary of the statements *)
(* ====================================================================== *)

(** The frame [f] after the strings [l] (newest first) were assigned to the
    caller's [error], every other cell as it was. *)
Definition frame_with_errors (l : list string) (f : Frame) : Frame :=
  mkFrame (charge_status f) (battery_voltage_mv f) (percent_charged f)
          (battery_current_mA f) (minutes f) (l ++ error_msgs f).

(** What a failed transfer assigns to the caller's [error]. *)
Definition io_message (error : ErrArg) (pre : string) (k : Kernel)
  : list string :=
  match error with
  | ErrNull => []
  | ErrCell => [(pre ++ strerror k (errno k) ++ newline)%string]
  end.

(** The state once [ina219_get_status] has stored the bus voltage and the
    percentage. *)
Definition with_voltage_percent (v p : Z) (s : State) : State :=
  mkState (kernel s) (self s)
    (mkFrame (charge_status (frame s)) (Some v) (Some p)
             (battery_current_mA (frame s)) (minutes (frame s))
             (error_msgs (frame s))).

(** The state once [ina219_get_status] has stored all five results. *)
Definition with_results (st : INA219ChargeStatus) (v p mA mins : Z)
  (s : State) : State :=
  mkState (kernel s) (self s)
    (mkFrame (Some st) (Some v) (Some p) (Some mA) (Some mins)
             (error_msgs (frame s))).

Definition clamp_percent (q : Z) : Z := Z.max 0 (Z.min 100 q).

(** The three-way classification, as section 4.4 of the specification
    words it. *)
Definition classification (o : INA219) (p mA : Z) : INA219ChargeStatus :=
  if (99 <=? p) || (mA <? min_charging_current o) then INA219_FULLY_CHARGED
  else if 0 <? mA then INA219_CHARGING
  else INA219_DISCHARGING.

(** The time estimate of lines 291-317. *)
Definition minutes_expr (o : INA219) (st : INA219ChargeStatus) (p mA : Z)
  : option Z :=
  if status_eqb st INA219_FULLY_CHARGED then Some 0
  else if 0 <=? mA then
    match c_sub 100 p with
    | Some q =>
        match capacity_expr o q with
        | Some rc =>
            match seconds_expr rc mA with
            | Some sec => Some (Z.quot sec 60)
            | None => None
            end
        | None => None
        end
    | None => None
    end
  else
    match capacity_expr o p, c_neg mA with
    | Some rc, Some n =>
        match seconds_expr rc n with
        | Some sec => Some (Z.quot sec 60)
        | None => None
        end
    | _, _ => None
    end.

(** The calls in a trace that select the shunt-voltage register. *)
Definition selects_shunt (ev : Event) : bool :=
  match ev with
  | SysWrite _ b => Byte.eqb b SHUNT_REG
  | _ => false
  end.

Definition shunt_reads (k : Kernel) : nat :=
  List.length (filter selects_shunt (trace k)).

(** The two states of the transport handle of section 3. *)
Definition handle_closed (s : State) : bool := fd (self s) =? -1.

Definition handle_open_and_bound (s : State) : bool :=
  (0 <=? fd (self s)) &&
  match fd_lookup (fd (self s)) (fds (kernel s)) with
  | Some (Some a) => a =? i2c_addr (self s)
  | _ => false
  end.

Definition handle_invariant (s : State) : bool :=
  handle_closed s || handle_open_and_bound s.

(** What one register transfer (select [reg], read two bytes) may change
    between [s] and [s']: the kernel's trace and [errno], and the caller's
    [error]; [ok] tells whether the transfer succeeded. *)
Definition transfer_effect (reg : byte) (error : ErrArg) (ok : bool)
  (s s' : State) : Prop :=
  self s' = self s /\
  fds (kernel s') = fds (kernel s) /\
  (exists evs,
     trace (kernel s') = evs ++ trace (kernel s) /\
     (evs = [SysWrite (fd (self s)) reg] \/
      evs = [SysRead (fd (self s)) 2; SysWrite (fd (self s)) reg])) /\
  exists l,
    frame s' = frame_with_errors l (frame s) /\
    (List.length l <= 1)%nat /\
    (ok = true -> l = []) /\
    (error = ErrNull -> l = []) /\
    (ok = false -> error = ErrCell -> List.length l = 1%nat).

(** The operations that take the [char **error] argument, and a call of
    one of them, reduced to its [BOOL]. *)
Inductive Operation : Type :=
| OpRegisterRead (reg : byte)
| OpBusVoltage
| OpShuntVoltage
| OpStatus.

(** Success of a call, for the two shapes of result. *)
Definition succeeded {A} (r : option A) : bool :=
  match r with Some _ => true | None => false end.

Definition call (op : Operation) (error : ErrArg) : M bool :=
  match op with
  | OpRegisterRead reg =>
      r <- ina219_register_read_16 reg error ;; ret (succeeded r)
  | OpBusVoltage => r <- ina219_get_bus_voltage error ;; ret (succeeded r)
  | OpShuntVoltage => r <- ina219_get_shunt_voltage error ;; ret (succeeded r)
  | OpStatus => ina219_get_status error
  end.

(** The operations on an instance, and a run of a sequence of them in
    which every call returns and no [ina219_init] fails after its [open]
    succeeded ([self->fd >= 0] on a [FALSE] return). *)
Inductive Op : Type :=
| OpInit (error : ErrArg)
| OpUninit
| OpRead (op : Operation) (error : ErrArg).

Definition run_op (o : Op) : M bool :=
  match o with
  | OpInit error => ina219_init error
  | OpUninit => (ina219_uninit ;; ret true)
  | OpRead op error => call op error
  end.

Definition bind_failed (o : Op) (b : bool) (s : State) : bool :=
  match o with
  | OpInit _ => negb b && (0 <=? fd (self s))
  | _ => false
  end.

Inductive runs_clean : list Op -> State -> State -> Prop :=
| clean_nil s : runs_clean [] s s
| clean_cons o ops s b s1 s2 :
    run_op o s = Done b s1 ->
    bind_failed o b s1 = false ->
    runs_clean ops s1 s2 ->
    runs_clean (o :: ops) s s2.

(** The state a run ends in ([dflt] if it stops). *)
Definition final_state {A} (o : Outcome A) (dflt : State) : State :=
  match o with
  | Done _ s => s
  | Stop _ => dflt
  end.

(** *** Concrete environments, for the scenarios *)

(** A few rows of the message table of the C library. *)
Definition linux_strerror (e : Z) : string :=
  if e =? 0 then "Success"
  else if e =? 5 then "Input/output error"
  else if e =? 121 then "Remote I/O error"
  else "Unknown error".

(** The kernel that answers the listed replies in turn, and [EIO] after. *)
Definition scripted (l : list Reply) (table : list (Z * option Z)) : Kernel :=
  mkKernel (fun n => nth n l (Fail 5)) [] 0 table linux_strerror.

Definition blank_frame : Frame := mkFrame None None None None None [].

(** The configuration of main.c. *)
Definition demo_config (d : Z) : INA219 :=
  with_fd d (ina219_create "/dev/i2c-1" 0x42 100 6000 8260 2400 10).

(** A state between [ina219_init] and [ina219_uninit]: descriptor 3 is
    open and bound to the chip. *)
Definition demo_state (l : list Reply) : State :=
  mkState (scripted l [(3, Some 0x42)]) (demo_config 3) blank_frame.

Definition ack : Reply := Ok 1 (x00, x00).
Definition word (hi lo : byte) : Reply := Ok 2 (hi, lo).

(** The kernel after one complete register transfer on descriptor 3. *)
Definition after_transfer (reg : byte) (k : Kernel) : Kernel :=
  log (SysRead 3 2) (log (SysWrite 3 reg) k).

(** Scenario A, on the wire: the bus register holds 0x37B8 (7132 mV), the
    shunt register 0x1388 (5000 x 10 uV = 50 mV). *)
Definition scenario_A : State :=
  demo_state [ack; word x37 xb8; ack; word x13 x88].

Definition scenario_A_end : State :=
  with_results INA219_CHARGING 7132 50 500 144
    (mkState (after_transfer SHUNT_REG
                (after_transfer BUS_REG (kernel scenario_A)))
             (demo_config 3) blank_frame).

(** Scenario A as the specification words it: the bus voltage in hand is
    7130 mV, the shunt register, read next, holds 0x1388. *)
Definition scenario_A_shunt : State := demo_state [ack; word x13 x88].

Definition scenario_A_shunt_read : State :=
  mkState (after_transfer SHUNT_REG (kernel scenario_A_shunt))
          (demo_config 3) (mkFrame None (Some 7130) (Some 50) None None []).

(** The bus register holds 0x40D8 (8300 mV), above the 100 % voltage. *)
Definition scenario_C : State :=
  demo_state [ack; word x40 xd8; ack; word x13 x88].

Definition scenario_C_bus : State :=
  mkState (after_transfer BUS_REG (kernel scenario_C))
          (demo_config 3) blank_frame.

Definition scenario_C_end : State :=
  with_results INA219_FULLY_CHARGED 8300 100 500 0
    (mkState (after_transfer SHUNT_REG
                (after_transfer BUS_REG (kernel scenario_C)))
             (demo_config 3) blank_frame).

(** The chip does not take the register index: the first write transfers
    no byte. *)
Definition bus_dead : State := demo_state [Ok 0 (x00, x00)].

Definition bus_dead_end : State :=
  mkState (log (SysWrite 3 BUS_REG) (kernel bus_dead)) (demo_config 3)
    (frame_with_errors
       [("Failed to write I2C device: Success" ++ newline)%string]
       blank_frame).

(** The bus register is read as in scenario A; the read of the shunt
    register then fails with [EREMOTEIO]. *)
Definition shunt_dead : State :=
  demo_state [ack; word x37 xb8; ack; Fail 121].

Definition shunt_dead_bus : State :=
  mkState (after_transfer BUS_REG (kernel shunt_dead))
          (demo_config 3) blank_frame.

Definition shunt_dead_end : State :=
  mkState (set_errno 121
             (after_transfer SHUNT_REG
                (after_transfer BUS_REG (kernel shunt_dead))))
          (demo_config 3)
          (mkFrame None (Some 7132) (Some 50) None None
             [("Failed to read I2C device: Remote I/O error" ++ newline)%string]).

(** The write of the register index fails with [EREMOTEIO] (the chip does
    not acknowledge); the read that follows delivers two bytes. *)
Definition write_fails : State := demo_state [Fail 121; word x37 xb8].

Definition write_fails_end : State :=
  mkState (log (SysRead 3 2)
             (set_errno 121 (log (SysWrite 3 BUS_REG) (kernel write_fails))))
          (demo_config 3) blank_frame.

(** A fresh instance, as [ina219_create] returns it; [open] gives
    descriptor 3, then [ioctl (I2C_SLAVE)] fails with [EREMOTEIO]. *)
Definition bind_fails : State :=
  mkState (scripted [Ok 3 (x00, x00); Fail 121] []) (demo_config (-1))
          blank_frame.

Definition bind_fails_end : State :=
  mkState (set_errno 121
             (log (SysIoctlSlave 3 0x42)
                (set_fds [(3, None)]
                   (log (SysOpen "/dev/i2c-1") (kernel bind_fails)))))
          (demo_config 3)
          (frame_with_errors ["Can't intialize I2C device: Remote I/O error"%string]
             blank_frame).

(** A fresh instance on a healthy bus: [open] gives descriptor 3, the
    bind succeeds, the two registers are read as in scenario A. *)
Definition healthy : State :=
  mkState (scripted [Ok 3 (x00, x00); Ok 0 (x00, x00);
                     ack; word x37 xb8; ack; word x13 x88] [])
          (demo_config (-1)) blank_frame.

Definition healthy_open : State :=
  Eval vm_compute in final_state (ina219_init ErrCell healthy) healthy.

Definition healthy_read : State :=
  Eval vm_compute in
    final_state (ina219_get_status ErrCell healthy_open) healthy_open.

Definition healthy_closed : State :=
  Eval vm_compute in final_state (ina219_uninit healthy_read) healthy_read.

(** *** Further environments *)

(** The two bytes of a 16-bit register holding the [int16_t] [x], high
    byte first. *)
Definition high_byte (x : Z) : Z := (x mod 2 ^ 16) / 256.
Definition low_byte (x : Z) : Z := x mod 256.

(** The system calls of the two register transfers of a status query,
    newest first. *)
Definition status_calls (d : Z) : list Event :=
  [SysRead d 2; SysWrite d SHUNT_REG; SysRead d 2; SysWrite d BUS_REG].

(** The last [n] calls of [status_calls], in time the first [n]. *)
Definition first_calls (n : nat) (d : Z) : list Event :=
  skipn (4 - n) (status_calls d).

(** A transfer that fails short, without an error from the kernel: the
    write transfers no byte, or it transfers one and the read then
    delivers fewer than two. *)
Definition short_transfer (s : State) : bool :=
  match next_reply (kernel s) with
  | Fail _ => false
  | Ok n _ =>
      if (n =? 0)%N then true
      else match oracle (kernel s) (S (List.length (trace (kernel s)))) with
           | Fail _ => false
           | Ok m _ => (m <? 2)%N
           end
  end.

(** The write is accepted, the read delivers one byte only; [errno] still
    holds [EIO] from some earlier call. *)
Definition short_read : State :=
  mkState (set_errno 5 (scripted [ack; Ok 1 (x37, xb8)] [(3, Some 0x42)]))
          (demo_config 3) blank_frame.

(** An open and bound instance with a configuration of one's own. *)
Definition custom_state (o : INA219) (l : list Reply) : State :=
  mkState (scripted l [(fd o, Some (i2c_addr o))]) o blank_frame.

(** The 0 % and the 100 % voltage are the same. *)
Definition flat_config : INA219 :=
  with_fd 3 (ina219_create "/dev/i2c-1" 0x42 100 6000 6000 2400 10).

(** No shunt resistance. *)
Definition no_shunt_config : INA219 :=
  with_fd 3 (ina219_create "/dev/i2c-1" 0x42 0 6000 8260 2400 10).

(** No minimum charging current. *)
Definition no_minimum_config : INA219 :=
  with_fd 3 (ina219_create "/dev/i2c-1" 0x42 100 6000 8260 2400 0).

(** The battery gives 300 mA: the shunt register holds 0xF448 (-30 mV). *)
Definition scenario_B : State :=
  demo_state [ack; word x37 xb8; ack; word xf4 x48].

Definition scenario_B_end : State :=
  with_results INA219_FULLY_CHARGED 7132 50 (-300) 0
    (mkState (after_transfer SHUNT_REG
                (after_transfer BUS_REG (kernel scenario_B)))
             (demo_config 3) blank_frame).

(** What [ina219_init] assigns to the caller's [error] when it fails with
    [errno] [e]. *)
Definition init_message (pre : string) (k : Kernel) (e : Z) : string :=
  (pre ++ strerror k e ++ "")%string.

(** The instance is open on descriptor 3; a second [ina219_init] is
    given descriptor 4. *)
Definition opened_twice : State :=
  mkState (scripted [Ok 4 (x00, x00); Ok 0 (x00, x00)] [(3, Some 0x42)])
          (demo_config 3) blank_frame.

(** No current flows: the shunt register holds 0, and the configuration
    has no minimum charging current. *)
Definition idle : State :=
  custom_state no_minimum_config [ack; word x37 xb8; ack; word x00 x00].

(** The demo on a healthy bus with the battery giving 300 mA, and on a
    machine without the device file. *)
Definition demo_discharging : State :=
  mkState (scripted [Ok 3 (x00, x00); Ok 0 (x00, x00);
                     ack; word x37 xb8; ack; word xf4 x48] [])
          (demo_config (-1)) blank_frame.

Definition demo_no_device : State :=
  mkState (scripted [Fail 2] []) (demo_config (-1)) blank_frame.

Definition is_stdout (p : Print) : bool :=
  match stream p with Stdout => true | Stderr => false end.

Definition demo_discharging_output : list Print :=
  [mkPrint Stdout ("Fully charged" ++ newline) [];
   mkPrint Stdout ("Battery voltage: %.2f V" ++ newline)
     [ArgDouble (double_div (double_of_int 7132) (double_of_int 1000))];
   mkPrint Stdout ("Battery current: %d mA" ++ newline) [ArgInt (- 300)];
   mkPrint Stdout ("Battery charge: %.d %%" ++ newline) [ArgInt 50]].

Definition demo_no_device_output : list Print :=
  [mkPrint Stderr ("Can't set up INA219: %s" ++ newline)
     [ArgString "Can't open I2C device: Unknown error"]].

(* ====================================================================== *)
(** ** Arithmetic lemmas *)
(* ====================================================================== *)

Lemma checked_Some z v : checked z = Some v -> v = z /\ in_int z = true.
Proof.
  unfold checked. destruct (in_int z); [intros [= <-]; auto | discriminate].
Qed.

Lemma in_int_bounds z : in_int z = true <-> - 2 ^ 31 <= z <= 2 ^ 31 - 1.
Proof.
  unfold in_int, INT_MIN, INT_MAX.
  rewrite andb_true_iff, !Z.leb_le. tauto.
Qed.

Lemma quot_pos_in_int n w : in_int n = true -> 0 < w -> in_int (Z.quot n w) = true.
Proof.
  rewrite !in_int_bounds. intros Hn Hw.
  destruct (Z.le_gt_cases 0 n) as [Hp | Hm].
  - assert (0 <= Z.quot n w) by (apply Z.quot_pos; lia).
    assert (Z.quot n w <= n) by (apply Z.quot_le_upper_bound; nia).
    lia.
  - assert (E : Z.quot n w = - Z.quot (- n) w).
    { rewrite Z.quot_opp_l by lia. lia. }
    assert (0 <= Z.quot (- n) w) by (apply Z.quot_pos; lia).
    assert (Z.quot (- n) w <= - n) by (apply Z.quot_le_upper_bound; nia).
    lia.
Qed.

Lemma to_int16_range z : - 32768 <= to_int16 z <= 32767.
Proof.
  unfold to_int16. pose proof (Z.mod_pos_bound (z + 2 ^ 15) (2 ^ 16)). lia.
Qed.

(** The mask [0xFFF8] only looks at the low 16 bits. *)
Lemma land_FFF8_mod z : Z.land z 0xFFF8 = Z.land (z mod 2 ^ 16) 0xFFF8.
Proof.
  apply Z.bits_inj'. intros n Hn.
  rewrite !Z.land_spec.
  destruct (Z.lt_ge_cases n 16) as [Hlt | Hge].
  - rewrite Z.mod_pow2_bits_low by lia. reflexivity.
  - replace (Z.testbit 65528 n) with false; [now rewrite !andb_false_r |].
    symmetry. apply (Z.bits_above_log2 65528 n); [lia |].
    change (Z.log2 65528) with 15. lia.
Qed.

(** The mask keeps bits 3 to 15: what is left is eight times a 13-bit
    number. *)
Lemma land_FFF8 x : Z.land x 0xFFF8 = 8 * ((x / 8) mod 2 ^ 13).
Proof.
  change 0xFFF8 with (Z.shiftl (Z.ones 13) 3).
  change 8 with (2 ^ 3) at 1 2.
  rewrite <- Z.shiftr_div_pow2 by lia.
  rewrite <- Z.land_ones by lia.
  rewrite Z.mul_comm, <- Z.shiftl_mul_pow2 by lia.
  apply Z.bits_inj'. intros n Hn.
  rewrite Z.land_spec, !Z.shiftl_spec by lia.
  destruct (Z.lt_ge_cases n 3).
  - rewrite (Z.testbit_neg_r (Z.ones 13)) by lia.
    rewrite (Z.testbit_neg_r (Z.land _ _)) by lia. apply andb_false_r.
  - rewrite Z.land_spec, Z.shiftr_spec by lia.
    replace (n - 3 + 3) with n by lia. reflexivity.
Qed.

(** The decoded bus voltage is four times that 13-bit number. *)
Lemma bus_decode_by_4 x :
  Z.shiftr (Z.land x 0xFFF8) 1 = 4 * ((x / 8) mod 2 ^ 13).
Proof.
  rewrite land_FFF8, Z.shiftr_div_pow2 by lia.
  replace (8 * ((x / 8) mod 2 ^ 13)) with (4 * ((x / 8) mod 2 ^ 13) * 2 ^ 1) by lia.
  apply Z.div_mul. lia.
Qed.

(* ====================================================================== *)
(** ** The monad *)
(* ====================================================================== *)

Lemma bind_Done {A B} (m : M A) (f : A -> M B) s b s' :
  bind m f s = Done b s' ->
  exists a s1, m s = Done a s1 /\ f a s1 = Done b s'.
Proof.
  unfold bind. destruct (m s) as [a s1 | c]; [eauto | discriminate].
Qed.

Lemma bind_step {A B} (m : M A) (f : A -> M B) s a s1 :
  m s = Done a s1 -> bind m f s = f a s1.
Proof. unfold bind. now intros ->. Qed.

Lemma bind_assoc {A B C} (m : M A) (f : A -> M B) (g : B -> M C) s :
  bind (bind m f) g s = bind m (fun a => bind (f a) g) s.
Proof. unfold bind. now destruct (m s). Qed.

(** One step of a run: the first command of a sequence is evaluated. *)
Ltac step :=
  try rewrite !bind_assoc;
  erewrite bind_step by reflexivity; cbv beta iota;
  cbn [kernel self frame charge_status battery_voltage_mv percent_charged
       battery_current_mA minutes error_msgs status_eqb].

Lemma frame_with_no_errors f : frame_with_errors [] f = f.
Proof. now destruct f. Qed.

(* ====================================================================== *)
(** ** Register transport *)
(* ====================================================================== *)

(** The system calls of a transfer leave the descriptor table alone and
    add one event each. *)
Lemma sys_write1_effect d b k w k1 :
  sys_write1 d b k = (w, k1) ->
  fds k1 = fds k /\ trace k1 = SysWrite d b :: trace k /\
  oracle k1 = oracle k /\ strerror k1 = strerror k.
Proof.
  unfold sys_write1. destruct (next_reply k); intros [= <- <-]; cbn; auto.
Qed.

Lemma sys_read2_effect d buf k r buf' k2 :
  sys_read2 d buf k = (r, buf', k2) ->
  fds k2 = fds k /\ trace k2 = SysRead d 2 :: trace k /\
  oracle k2 = oracle k /\ strerror k2 = strerror k.
Proof.
  unfold sys_read2. destruct (next_reply k); intros [= <- <- <-]; cbn; auto.
Qed.

(** [ina219_register_read_16] with the monad unfolded: one write, then one
    read, then the result or the message. *)
Lemma register_read_16_unfold reg error s :
  ina219_register_read_16 reg error s =
  if 0 <=? fd (self s) then
    let '(w, k1) := sys_write1 (fd (self s)) reg (kernel s) in
    if negb (w =? 0) then
      let '(r, buff, k2) := sys_read2 (fd (self s)) (reg, x00) k1 in
      if r =? 2 then
        Done (Some (to_int16 (Z.lor (Z.shiftl (byte_val (fst buff)) 8)
                                    (byte_val (snd buff)))))
             (mkState k2 (self s) (frame s))
      else
        Done None
             (mkState k2 (self s)
                (frame_with_errors
                   (io_message error "Failed to read I2C device: " k2)
                   (frame s)))
    else
      Done None
           (mkState k1 (self s)
              (frame_with_errors
                 (io_message error "Failed to write I2C device: " k1)
                 (frame s)))
  else Stop AssertFailed.
Proof.
  destruct s as [k o f].
  cbv [ina219_register_read_16 bind get_self assert syscall ret crash kernel self frame].
  destruct (0 <=? fd o); [| reflexivity].
  change (fst (reg, x00)) with reg.
  destruct (sys_write1 (fd o) reg k) as [w k1].
  destruct (negb (w =? 0)).
  - destruct (sys_read2 (fd o) (reg, x00) k1) as [[r buff] k2].
    destruct (r =? 2); [reflexivity |].
    destruct error; [now rewrite frame_with_no_errors | reflexivity].
  - destruct error; [now rewrite frame_with_no_errors | reflexivity].
Qed.

(** What a completed register read may have changed. *)
Lemma register_read_16_effect reg error s r s' :
  ina219_register_read_16 reg error s = Done r s' ->
  transfer_effect reg error (succeeded r) s s'.
Proof.
  unfold transfer_effect.
  rewrite register_read_16_unfold.
  destruct (0 <=? fd (self s)); [| discriminate].
  destruct (sys_write1 _ _ _) as [w k1] eqn:W.
  apply sys_write1_effect in W. destruct W as (Wf & Wt & _).
  destruct (negb (w =? 0)).
  - destruct (sys_read2 _ _ _) as [[r2 buff] k2] eqn:R.
    apply sys_read2_effect in R. destruct R as (Rf & Rt & _).
    destruct (r2 =? 2); intros [= <- <-]; cbn [self kernel frame].
    + repeat split; [congruence | |].
      * eexists. split; [| right; reflexivity]. rewrite Rt, Wt. reflexivity.
      * exists []. rewrite frame_with_no_errors. cbn.
        repeat split; auto; discriminate.
    + repeat split; [congruence | |].
      * eexists. split; [| right; reflexivity]. rewrite Rt, Wt. reflexivity.
      * eexists. split; [reflexivity |].
        destruct error; cbn; repeat split; auto; discriminate.
  - intros [= <- <-]; cbn [self kernel frame].
    repeat split; [congruence | |].
    + eexists. split; [| left; reflexivity]. rewrite Wt. reflexivity.
    + eexists. split; [reflexivity |].
      destruct error; cbn; repeat split; auto; discriminate.
Qed.

(** The value a successful register read delivers is an [int16_t]. *)
Lemma register_read_16_range reg error s v s' :
  ina219_register_read_16 reg error s = Done (Some v) s' ->
  - 32768 <= v <= 32767.
Proof.
  rewrite register_read_16_unfold.
  destruct (0 <=? fd (self s)); [| discriminate].
  destruct (sys_write1 _ _ _) as [w k1].
  destruct (negb (w =? 0)); [| discriminate].
  destruct (sys_read2 _ _ _) as [[r2 buff] k2].
  destruct (r2 =? 2); [| discriminate].
  intros [= <- _]. apply to_int16_range.
Qed.

(* ====================================================================== *)
(** ** The two voltage readings *)
(* ====================================================================== *)

Lemma get_bus_voltage_unfold error s :
  ina219_get_bus_voltage error s =
  match ina219_register_read_16 BUS_REG error s with
  | Done (Some regval) s' => Done (Some (Z.shiftr (Z.land regval 0xFFF8) 1)) s'
  | Done None s' => Done None s'
  | Stop c => Stop c
  end.
Proof.
  unfold ina219_get_bus_voltage, bind.
  destruct (ina219_register_read_16 BUS_REG error s) as [[v |] s' | c];
    reflexivity.
Qed.

Lemma get_shunt_voltage_unfold error s :
  ina219_get_shunt_voltage error s =
  match ina219_register_read_16 SHUNT_REG error s with
  | Done (Some regval) s' => Done (Some (Z.quot regval 100)) s'
  | Done None s' => Done None s'
  | Stop c => Stop c
  end.
Proof.
  unfold ina219_get_shunt_voltage, bind.
  destruct (ina219_register_read_16 SHUNT_REG error s) as [[v |] s' | c];
    reflexivity.
Qed.

(** A voltage reading is a register read as far as the state goes. *)
Lemma get_bus_voltage_read error s r s' :
  ina219_get_bus_voltage error s = Done r s' ->
  exists r0, ina219_register_read_16 BUS_REG error s = Done r0 s' /\
             succeeded r0 = succeeded r.
Proof.
  rewrite get_bus_voltage_unfold.
  destruct (ina219_register_read_16 BUS_REG error s) as [[v |] s1 | c];
    [| | discriminate]; intros [= <- <-]; eauto.
Qed.

Lemma get_shunt_voltage_read error s r s' :
  ina219_get_shunt_voltage error s = Done r s' ->
  exists r0, ina219_register_read_16 SHUNT_REG error s = Done r0 s' /\
             succeeded r0 = succeeded r.
Proof.
  rewrite get_shunt_voltage_unfold.
  destruct (ina219_register_read_16 SHUNT_REG error s) as [[v |] s1 | c];
    [| | discriminate]; intros [= <- <-]; eauto.
Qed.

Lemma get_bus_voltage_effect error s r s' :
  ina219_get_bus_voltage error s = Done r s' ->
  transfer_effect BUS_REG error (succeeded r) s s'.
Proof.
  intros H. apply get_bus_voltage_read in H. destruct H as (r0 & H & <-).
  now apply register_read_16_effect.
Qed.

Lemma get_shunt_voltage_effect error s r s' :
  ina219_get_shunt_voltage error s = Done r s' ->
  transfer_effect SHUNT_REG error (succeeded r) s s'.
Proof.
  intros H. apply get_shunt_voltage_read in H. destruct H as (r0 & H & <-).
  now apply register_read_16_effect.
Qed.

(* ====================================================================== *)
(** ** The status estimator *)
(* ====================================================================== *)

Lemma clamp_steps q :
  (let p1 := if 100 <? q then 100 else q in if p1 <? 0 then 0 else p1)
  = clamp_percent q.
Proof.
  unfold clamp_percent. cbv zeta.
  destruct (Z.ltb_spec 100 q); [destruct (Z.ltb_spec 100 0); lia |].
  destruct (Z.ltb_spec q 0); lia.
Qed.

(** [status_with_bus_voltage] with the monad unfolded: the percentage,
    the shunt reading, then the current, the classification and the time
    estimate. *)
Lemma status_with_bus_voltage_unfold o v error s1 :
  status_with_bus_voltage o v error s1 =
  match percent_expr o v with
  | Some q =>
      let p := clamp_percent q in
      match ina219_get_shunt_voltage error (with_voltage_percent v p s1) with
      | Done (Some sv) s3 =>
          match current_expr o sv with
          | Some mA =>
              let st := classification o p mA in
              match minutes_expr o st p mA with
              | Some mins => Done true (with_results st v p mA mins s3)
              | None => Stop Undefined
              end
          | None => Stop Undefined
          end
      | Done None s3 => Done false s3
      | Stop c => Stop c
      end
  | None => Stop Undefined
  end.
Proof.
  unfold status_with_bus_voltage. step.
  destruct (percent_expr o v) as [q |]; [| reflexivity].
  cbv zeta. rewrite <- (clamp_steps q). cbv zeta.
  unfold with_voltage_percent.
  do 3 step.
  set (p1 := if 100 <? q then 100 else q).
  assert (E1 : ((if 100 <? q then store_percent_charged 100 else ret tt)
                  (mkState (kernel s1) (self s1)
                     (mkFrame (charge_status (frame s1)) (Some v) (Some q)
                        (battery_current_mA (frame s1)) (minutes (frame s1))
                        (error_msgs (frame s1)))))
               = Done tt
                   (mkState (kernel s1) (self s1)
                     (mkFrame (charge_status (frame s1)) (Some v) (Some p1)
                        (battery_current_mA (frame s1)) (minutes (frame s1))
                        (error_msgs (frame s1))))).
  { subst p1. destruct (100 <? q); reflexivity. }
  rewrite (bind_step _ _ _ _ _ E1). clear E1. step.
  set (p := if p1 <? 0 then 0 else p1).
  assert (E2 : ((if p1 <? 0 then store_percent_charged 0 else ret tt)
                  (mkState (kernel s1) (self s1)
                     (mkFrame (charge_status (frame s1)) (Some v) (Some p1)
                        (battery_current_mA (frame s1)) (minutes (frame s1))
                        (error_msgs (frame s1)))))
               = Done tt
                   (mkState (kernel s1) (self s1)
                     (mkFrame (charge_status (frame s1)) (Some v) (Some p)
                        (battery_current_mA (frame s1)) (minutes (frame s1))
                        (error_msgs (frame s1))))).
  { subst p. destruct (p1 <? 0); reflexivity. }
  rewrite (bind_step _ _ _ _ _ E2). clear E2.
  clearbody p. clear p1.
  unfold bind at 1.
  destruct (ina219_get_shunt_voltage error _) as [[sv |] s3 | c] eqn:SH;
    try reflexivity.
  apply get_shunt_voltage_read in SH. destruct SH as (r0 & SH & _).
  apply register_read_16_effect in SH.
  destruct SH as (_ & _ & _ & l & Hf & _).
  destruct s3 as [k3 o3 f3]. cbn [frame] in Hf. subst f3.
  unfold frame_with_errors, with_results.
  cbn [kernel self frame charge_status battery_voltage_mv percent_charged
       battery_current_mA minutes error_msgs].
  destruct (current_expr o sv) as [mA |]; [| reflexivity].
  do 3 step.
  unfold classification, minutes_expr, INA_FULL_PERCENT.
  destruct ((99 <=? p) || (mA <? min_charging_current o)).
  { repeat step. reflexivity. }
  destruct (0 <? mA); repeat step;
    (destruct (0 <=? mA); step;
     [ destruct (c_sub 100 p) as [q0 |]; [| reflexivity]; step;
       destruct (capacity_expr o q0) as [rc |]; [| reflexivity]; step;
       destruct (seconds_expr rc mA) as [sec |]; [| reflexivity]
     | destruct (capacity_expr o p) as [rc |]; [| reflexivity]; step;
       destruct (c_neg mA) as [n |]; [| reflexivity]; step;
       destruct (seconds_expr rc n) as [sec |]; [| reflexivity] ];
     repeat step; reflexivity).
Qed.

(** [ina219_get_status] with the monad unfolded: the two readings in
    sequence, and between and after them the integer expressions. *)
Lemma get_status_unfold error s :
  ina219_get_status error s =
  match ina219_get_bus_voltage error s with
  | Done (Some v) s1 =>
      match percent_expr (self s) v with
      | Some q =>
          let p := clamp_percent q in
          match ina219_get_shunt_voltage error (with_voltage_percent v p s1) with
          | Done (Some sv) s3 =>
              match current_expr (self s) sv with
              | Some mA =>
                  let st := classification (self s) p mA in
                  match minutes_expr (self s) st p mA with
                  | Some mins => Done true (with_results st v p mA mins s3)
                  | None => Stop Undefined
                  end
              | None => Stop Undefined
              end
          | Done None s3 => Done false s3
          | Stop c => Stop c
          end
      | None => Stop Undefined
      end
  | Done None s1 => Done false s1
  | Stop c => Stop c
  end.
Proof.
  unfold ina219_get_status. step.
  unfold bind at 1.
  destruct (ina219_get_bus_voltage error s) as [[v |] s1 | c]; try reflexivity.
  apply status_with_bus_voltage_unfold.
Qed.

(* ====================================================================== *)
(** ** Properties *)
(* ====================================================================== *)

(** C4.  Whatever 16-bit value the bus-voltage register read delivers,
    the bus voltage reported in millivolts is that value with its low
    three bits masked off ([& 0xFFF8]) and shifted right by one bit.  The
    register value reaches the expression as a sign-extended [int16_t];
    the mask makes the result the same as for the raw unsigned 16-bit
    pattern, so it lies between 0 and 32764. *)
Theorem bus_voltage_decoding error s regval s' :
  ina219_register_read_16 BUS_REG error s = Done (Some regval) s' ->
  ina219_get_bus_voltage error s
    = Done (Some (Z.shiftr (Z.land regval 0xFFF8) 1)) s' /\
  Z.shiftr (Z.land regval 0xFFF8) 1
    = Z.shiftr (Z.land (regval mod 2 ^ 16) 0xFFF8) 1 /\
  0 <= Z.shiftr (Z.land regval 0xFFF8) 1 <= 32764.
Proof.
  intros H. rewrite get_bus_voltage_unfold, H.
  split; [reflexivity |]. split.
  - now rewrite <- land_FFF8_mod.
  - rewrite bus_decode_by_4.
    pose proof (Z.mod_pos_bound (regval / 8) (2 ^ 13)). lia.
Qed.

(** The register holds 0xFFFF: the [int16_t] is -1, the voltage 32764 mV. *)
Lemma bus_voltage_decoding_witness :
  ina219_get_bus_voltage ErrCell (demo_state [ack; word xff xff])
    = Done (Some (Z.shiftr (Z.land (-1) 0xFFF8) 1))
           (mkState (log (SysRead 3 2)
                       (log (SysWrite 3 BUS_REG)
                          (kernel (demo_state [ack; word xff xff]))))
                    (demo_config 3) blank_frame) /\
  Z.shiftr (Z.land (-1) 0xFFF8) 1
    = Z.shiftr (Z.land ((-1) mod 2 ^ 16) 0xFFF8) 1 /\
  0 <= Z.shiftr (Z.land (-1) 0xFFF8) 1 <= 32764.
Proof.
  apply (bus_voltage_decoding ErrCell (demo_state [ack; word xff xff]) (-1)).
  reflexivity.
Defined.

(** C5.  Whatever signed 16-bit value the shunt-voltage register read
    delivers, the shunt voltage reported in millivolts is that value
    divided by 100 with the quotient truncated toward zero: the magnitude
    is the floor of |r| / 100 and the sign is never reversed. *)
Theorem shunt_voltage_decoding error s regval s' :
  ina219_register_read_16 SHUNT_REG error s = Done (Some regval) s' ->
  exists mv,
    ina219_get_shunt_voltage error s = Done (Some mv) s' /\
    mv = Z.quot regval 100 /\
    Z.abs mv = Z.abs regval / 100 /\
    (0 <= regval -> 0 <= mv) /\
    (regval <= 0 -> mv <= 0) /\
    Z.abs (regval - 100 * mv) < 100 /\
    - 327 <= mv <= 327.
Proof.
  intros H. exists (Z.quot regval 100).
  rewrite get_shunt_voltage_unfold, H.
  apply register_read_16_range in H.
  split; [reflexivity |]. split; [reflexivity |].
  assert (A : Z.abs (Z.quot regval 100) = Z.abs regval / 100).
  { rewrite <- Z.quot_abs by lia. apply Z.quot_div_nonneg; lia. }
  pose proof (Z.quot_rem' regval 100) as E.
  pose proof (Z.rem_bound_abs regval 100 ltac:(lia)) as B.
  assert (D : Z.abs regval / 100 < 328).
  { apply Z.div_lt_upper_bound; lia. }
  assert (P : 0 <= regval -> 0 <= Z.quot regval 100)
    by (intros; apply Z.quot_pos; lia).
  assert (N : regval <= 0 -> Z.quot regval 100 <= 0).
  { intros. replace regval with (- - regval) by lia.
    rewrite Z.quot_opp_l by lia.
    assert (0 <= Z.quot (- regval) 100) by (apply Z.quot_pos; lia). lia. }
  repeat split; try assumption; try lia.
Qed.

(** The register holds 0xF416 = -3050 (30.5 mV the other way): the
    reading is -30 mV, not -31. *)
Lemma shunt_voltage_decoding_witness :
  exists mv,
    ina219_get_shunt_voltage ErrCell (demo_state [ack; word xf4 x16])
      = Done (Some mv)
             (mkState (log (SysRead 3 2)
                         (log (SysWrite 3 SHUNT_REG)
                            (kernel (demo_state [ack; word xf4 x16]))))
                      (demo_config 3) blank_frame) /\
    mv = Z.quot (-3050) 100 /\
    Z.abs mv = Z.abs (-3050) / 100 /\
    (0 <= -3050 -> 0 <= mv) /\
    (-3050 <= 0 -> mv <= 0) /\
    Z.abs (-3050 - 100 * mv) < 100 /\
    - 327 <= mv <= 327.
Proof.
  apply (shunt_voltage_decoding ErrCell (demo_state [ack; word xf4 x16]) (-3050)).
  reflexivity.
Defined.

(** What a completed status query may have changed besides the five
    result cells: the same as one or two register transfers. *)
Lemma get_status_effect error s b s' :
  ina219_get_status error s = Done b s' ->
  self s' = self s /\
  fds (kernel s') = fds (kernel s) /\
  exists l,
    error_msgs (frame s') = l ++ error_msgs (frame s) /\
    (List.length l <= 1)%nat /\
    (b = true -> l = []) /\
    (error = ErrNull -> l = []) /\
    (b = false -> error = ErrCell -> List.length l = 1%nat).
Proof.
  rewrite get_status_unfold.
  destruct (ina219_get_bus_voltage error s) as [[v |] s1 | c] eqn:B;
    [| | discriminate]; apply get_bus_voltage_effect in B;
    destruct B as (Bs & Bf & _ & l1 & Bl & Bn & Bok & Bnull & Bfail).
  - destruct (percent_expr (self s) v) as [q |]; [| discriminate]. cbv zeta.
    specialize (Bok eq_refl). subst l1. rewrite frame_with_no_errors in Bl.
    destruct (ina219_get_shunt_voltage error _) as [[sv |] s3 | c] eqn:S;
      [| | discriminate]; apply get_shunt_voltage_effect in S;
      destruct S as (Ss & Sf & _ & l2 & Sl & Sn & Sok & Snull & Sfail);
      cbn [with_voltage_percent self kernel frame] in Ss, Sf, Sl.
    + destruct (current_expr (self s) sv) as [mA |]; [| discriminate].
      destruct (minutes_expr _ _ _ _) as [mins |]; [| discriminate].
      intros [= <- <-]. cbn [with_results self kernel frame error_msgs].
      repeat split; [congruence | congruence |].
      exists l2. rewrite Sl, Bl. cbn. repeat split; auto; discriminate.
    + intros [= <- <-].
      repeat split; [congruence | congruence |].
      exists l2. rewrite Sl, Bl. cbn. repeat split; auto; discriminate.
  - intros [= <- <-].
    repeat split; [congruence | congruence |].
    exists l1. rewrite Bl. cbn. repeat split; auto; discriminate.
Qed.

(** The bus transfer leaves the shunt register alone. *)
Lemma bus_transfer_no_shunt_read error ok s s' :
  transfer_effect BUS_REG error ok s s' ->
  shunt_reads (kernel s') = shunt_reads (kernel s).
Proof.
  intros (_ & _ & (evs & Ht & [-> | ->]) & _);
    unfold shunt_reads; rewrite Ht; reflexivity.
Qed.

(** C7.  When the bus-voltage read fails, [ina219_get_status] returns
    [FALSE] in the very state that read left: the error is the one the
    read assigned, no result cell is written, and the shunt-voltage
    register is not read. *)
Theorem bus_failure_propagates error s s1 :
  ina219_get_bus_voltage error s = Done None s1 ->
  ina219_get_status error s = Done false s1 /\
  shunt_reads (kernel s1) = shunt_reads (kernel s) /\
  (exists evs,
     trace (kernel s1) = evs ++ trace (kernel s) /\
     (evs = [SysWrite (fd (self s)) BUS_REG] \/
      evs = [SysRead (fd (self s)) 2; SysWrite (fd (self s)) BUS_REG])) /\
  charge_status (frame s1) = charge_status (frame s) /\
  battery_voltage_mv (frame s1) = battery_voltage_mv (frame s) /\
  percent_charged (frame s1) = percent_charged (frame s) /\
  battery_current_mA (frame s1) = battery_current_mA (frame s) /\
  minutes (frame s1) = minutes (frame s).
Proof.
  intros H. split; [rewrite get_status_unfold, H; reflexivity |].
  apply get_bus_voltage_effect in H.
  split; [eapply bus_transfer_no_shunt_read; eassumption |].
  destruct H as (_ & _ & Ht & l & -> & _).
  split; [exact Ht |]. cbn. auto 6.
Qed.

(** The chip does not take the register index. *)
Lemma bus_failure_propagates_witness :
  ina219_get_status ErrCell bus_dead = Done false bus_dead_end /\
  shunt_reads (kernel bus_dead_end) = shunt_reads (kernel bus_dead) /\
  (exists evs,
     trace (kernel bus_dead_end) = evs ++ trace (kernel bus_dead) /\
     (evs = [SysWrite (fd (self bus_dead)) BUS_REG] \/
      evs = [SysRead (fd (self bus_dead)) 2;
             SysWrite (fd (self bus_dead)) BUS_REG])) /\
  charge_status (frame bus_dead_end) = charge_status (frame bus_dead) /\
  battery_voltage_mv (frame bus_dead_end) = battery_voltage_mv (frame bus_dead) /\
  percent_charged (frame bus_dead_end) = percent_charged (frame bus_dead) /\
  battery_current_mA (frame bus_dead_end) = battery_current_mA (frame bus_dead) /\
  minutes (frame bus_dead_end) = minutes (frame bus_dead).
Proof.
  apply (bus_failure_propagates ErrCell bus_dead bus_dead_end).
  vm_compute. reflexivity.
Defined.

(** Every way [ina219_get_status] can complete, read off its unfolding. *)
Lemma get_status_cases error s b s' :
  ina219_get_status error s = Done b s' ->
  (b = false /\ ina219_get_bus_voltage error s = Done None s') \/
  exists v s1 q,
    ina219_get_bus_voltage error s = Done (Some v) s1 /\
    percent_expr (self s) v = Some q /\
    ((b = false /\
      ina219_get_shunt_voltage error
        (with_voltage_percent v (clamp_percent q) s1) = Done None s') \/
     exists sv s3 mA mins,
       ina219_get_shunt_voltage error
         (with_voltage_percent v (clamp_percent q) s1) = Done (Some sv) s3 /\
       current_expr (self s) sv = Some mA /\
       minutes_expr (self s) (classification (self s) (clamp_percent q) mA)
                    (clamp_percent q) mA = Some mins /\
       b = true /\
       s' = with_results (classification (self s) (clamp_percent q) mA)
                         v (clamp_percent q) mA mins s3).
Proof.
  rewrite get_status_unfold.
  destruct (ina219_get_bus_voltage error s) as [[v |] s1 | c] eqn:B;
    [| intros [= <- <-]; auto | discriminate].
  destruct (percent_expr (self s) v) as [q |] eqn:P; [| discriminate].
  cbv zeta.
  destruct (ina219_get_shunt_voltage error _) as [[sv |] s3 | c] eqn:S;
    [| | discriminate].
  - destruct (current_expr (self s) sv) as [mA |] eqn:C; [| discriminate].
    destruct (minutes_expr _ _ _ _) as [mins |] eqn:Mi; [| discriminate].
    intros [= <- <-]. right. exists v, s1, q.
    do 2 (split; [solve [auto] |]).
    right. exists sv, s3, mA, mins. auto.
  - intros [= <- <-]. right. exists v, s1, q.
    do 2 (split; [solve [auto] |]). left. auto.
Qed.

Lemma clamp_percent_range q : 0 <= clamp_percent q <= 100.
Proof. unfold clamp_percent. lia. Qed.

(** C1.  After every successful [ina219_get_status], with [p] the
    percentage stored (the clamped one) and [c] the current stored: the
    status stored is FULLY_CHARGED exactly when [p >= 99] or
    [c < min_charging_current]; otherwise it is CHARGING exactly when
    [c > 0] and DISCHARGING exactly when [c <= 0].  In particular
    [p = 99] gives FULLY_CHARGED whatever the current, [p = 98] with
    [c = min_charging_current - 1] gives FULLY_CHARGED, and [p = 98] with
    [c = min_charging_current > 0] gives CHARGING. *)
Theorem charge_status_classification error s s' :
  ina219_get_status error s = Done true s' ->
  exists p c st,
    percent_charged (frame s') = Some p /\
    battery_current_mA (frame s') = Some c /\
    charge_status (frame s') = Some st /\
    (exists v s1 q sv,
       ina219_get_bus_voltage error s = Done (Some v) s1 /\
       percent_expr (self s) v = Some q /\ p = clamp_percent q /\
       current_expr (self s) sv = Some c) /\
    (st = INA219_FULLY_CHARGED <->
       99 <= p \/ c < min_charging_current (self s)) /\
    (st = INA219_CHARGING <->
       ~ (99 <= p \/ c < min_charging_current (self s)) /\ 0 < c) /\
    (st = INA219_DISCHARGING <->
       ~ (99 <= p \/ c < min_charging_current (self s)) /\ c <= 0) /\
    (p = 99 -> st = INA219_FULLY_CHARGED) /\
    (p = 98 -> c = min_charging_current (self s) - 1 ->
       st = INA219_FULLY_CHARGED) /\
    (p = 98 -> c = min_charging_current (self s) -> 0 < c ->
       st = INA219_CHARGING).
Proof.
  intros H. apply get_status_cases in H.
  destruct H as [[? _] | (v & s1 & q & B & P & [[? _] | H])]; try discriminate.
  destruct H as (sv & s3 & mA & mins & _ & C & _ & _ & ->).
  exists (clamp_percent q), mA, (classification (self s) (clamp_percent q) mA).
  cbn [with_results frame percent_charged battery_current_mA charge_status].
  do 3 (split; [reflexivity |]).
  split; [exists v, s1, q, sv; auto |].
  unfold classification.
  destruct (Z.leb_spec 99 (clamp_percent q));
    destruct (Z.ltb_spec mA (min_charging_current (self s)));
    destruct (Z.ltb_spec 0 mA); cbn [orb];
    repeat split; intros; try discriminate; try lia; try reflexivity; auto.
Qed.

(** Scenario A on the wire: 50 %, 500 mA, charging. *)
Lemma charge_status_classification_witness :
  exists p c st,
    percent_charged (frame scenario_A_end) = Some p /\
    battery_current_mA (frame scenario_A_end) = Some c /\
    charge_status (frame scenario_A_end) = Some st /\
    (exists v s1 q sv,
       ina219_get_bus_voltage ErrCell scenario_A = Done (Some v) s1 /\
       percent_expr (self scenario_A) v = Some q /\ p = clamp_percent q /\
       current_expr (self scenario_A) sv = Some c) /\
    (st = INA219_FULLY_CHARGED <->
       99 <= p \/ c < min_charging_current (self scenario_A)) /\
    (st = INA219_CHARGING <->
       ~ (99 <= p \/ c < min_charging_current (self scenario_A)) /\ 0 < c) /\
    (st = INA219_DISCHARGING <->
       ~ (99 <= p \/ c < min_charging_current (self scenario_A)) /\ c <= 0) /\
    (p = 99 -> st = INA219_FULLY_CHARGED) /\
    (p = 98 -> c = min_charging_current (self scenario_A) - 1 ->
       st = INA219_FULLY_CHARGED) /\
    (p = 98 -> c = min_charging_current (self scenario_A) -> 0 < c ->
       st = INA219_CHARGING).
Proof.
  apply (charge_status_classification ErrCell scenario_A scenario_A_end).
  vm_compute. reflexivity.
Defined.

(** The percentage expression, when the 100 % voltage exceeds the 0 %
    voltage: the truncated quotient, provided the intermediate values are
    [int]s. *)
Lemma percent_expr_value o v q :
  percent_expr o v = Some q ->
  battery_voltage_100_percent o <> battery_voltage_0_percent o /\
  q = Z.quot (100 * (v - battery_voltage_0_percent o))
             (battery_voltage_100_percent o - battery_voltage_0_percent o).
Proof.
  unfold percent_expr, c_sub, c_mul, c_div.
  destruct (checked (v - _)) as [d |] eqn:D; [| discriminate].
  destruct (checked (battery_voltage_100_percent o - _)) as [w |] eqn:W;
    [| discriminate].
  destruct (checked (100 * d)) as [n |] eqn:N; [| discriminate].
  apply checked_Some in D, W, N. destruct D as [-> _], W as [-> _], N as [-> _].
  destruct (Z.eqb_spec (battery_voltage_100_percent o
                        - battery_voltage_0_percent o) 0); [discriminate |].
  intros H. apply checked_Some in H. destruct H as [-> _]. split; [lia | auto].
Qed.

Lemma percent_expr_defined o v :
  battery_voltage_0_percent o < battery_voltage_100_percent o ->
  in_int (v - battery_voltage_0_percent o) = true ->
  in_int (100 * (v - battery_voltage_0_percent o)) = true ->
  in_int (battery_voltage_100_percent o - battery_voltage_0_percent o) = true ->
  percent_expr o v
  = Some (Z.quot (100 * (v - battery_voltage_0_percent o))
                 (battery_voltage_100_percent o - battery_voltage_0_percent o)).
Proof.
  intros Hlt H1 H2 H3.
  unfold percent_expr, c_sub, c_mul, c_div, checked.
  rewrite H1, H3, H2.
  destruct (Z.eqb_spec (battery_voltage_100_percent o
                        - battery_voltage_0_percent o) 0); [lia |].
  rewrite quot_pos_in_int by (auto; lia). reflexivity.
Qed.

(** C6.  When the 100 % voltage exceeds the 0 % voltage, the percentage
    a completed [ina219_get_status] stores for the bus voltage [v] is
    [100 * (v - v0) / (v100 - v0)], the division truncating, clamped into
    [0, 100]: 0 below the 0 % voltage and 100 above the 100 % voltage. *)
Theorem percent_charged_clamped error s v s1 b s' :
  battery_voltage_0_percent (self s) < battery_voltage_100_percent (self s) ->
  ina219_get_bus_voltage error s = Done (Some v) s1 ->
  ina219_get_status error s = Done b s' ->
  exists p,
    percent_charged (frame s') = Some p /\
    p = Z.max 0 (Z.min 100
          (Z.quot (100 * (v - battery_voltage_0_percent (self s)))
                  (battery_voltage_100_percent (self s)
                   - battery_voltage_0_percent (self s)))) /\
    0 <= p <= 100 /\
    (v < battery_voltage_0_percent (self s) -> p = 0) /\
    (battery_voltage_100_percent (self s) < v -> p = 100).
Proof.
  intros Hlt B H. apply get_status_cases in H.
  destruct H as [[_ B'] | (v' & s1' & q & B' & P & H)]; [congruence |].
  rewrite B in B'. injection B' as <- <-.
  exists (clamp_percent q). split.
  - destruct H as [[_ S] | (sv & s3 & mA & mins & _ & _ & _ & _ & ->)];
      [| reflexivity].
    apply get_shunt_voltage_effect in S. destruct S as (_ & _ & _ & l & -> & _).
    reflexivity.
  - apply percent_expr_value in P. destruct P as [_ ->].
    set (v0 := battery_voltage_0_percent (self s)) in *.
    set (v100 := battery_voltage_100_percent (self s)) in *.
    split; [reflexivity |]. split; [apply clamp_percent_range |].
    unfold clamp_percent. split; intros Hv.
    + assert (Z.quot (100 * (v - v0)) (v100 - v0) <= 0); [| lia].
      replace (100 * (v - v0)) with (- (100 * (v0 - v))) by lia.
      rewrite Z.quot_opp_l by lia.
      assert (0 <= Z.quot (100 * (v0 - v)) (v100 - v0))
        by (apply Z.quot_pos; lia). lia.
    + assert (100 <= Z.quot (100 * (v - v0)) (v100 - v0)); [| lia].
      apply Z.quot_le_lower_bound; lia.
Qed.

(** Scenario C: 8300 mV gives 101, stored as 100. *)
Lemma percent_charged_clamped_witness :
  exists p,
    percent_charged (frame scenario_C_end) = Some p /\
    p = Z.max 0 (Z.min 100
          (Z.quot (100 * (8300 - battery_voltage_0_percent (self scenario_C)))
                  (battery_voltage_100_percent (self scenario_C)
                   - battery_voltage_0_percent (self scenario_C)))) /\
    0 <= p <= 100 /\
    (8300 < battery_voltage_0_percent (self scenario_C) -> p = 0) /\
    (battery_voltage_100_percent (self scenario_C) < 8300 -> p = 100).
Proof.
  apply (percent_charged_clamped ErrCell scenario_C 8300 scenario_C_bus true
           scenario_C_end).
  - vm_compute. reflexivity.
  - vm_compute. reflexivity.
  - vm_compute. reflexivity.
Defined.

(** C2, as the code has it.  When the bus-voltage read succeeds and the
    shunt-voltage read fails, [ina219_get_status] returns [FALSE] with the
    error of the shunt read (one message, if the caller gave an [error]);
    the charge status, the current and the minutes are left unwritten,
    while the battery voltage and the percentage already hold the decoded
    bus voltage and the clamped percentage. *)
Theorem shunt_failure_outputs error s v s1 q s' :
  ina219_get_bus_voltage error s = Done (Some v) s1 ->
  percent_expr (self s) v = Some q ->
  ina219_get_shunt_voltage error
    (with_voltage_percent v (clamp_percent q) s1) = Done None s' ->
  ina219_get_status error s = Done false s' /\
  battery_voltage_mv (frame s') = Some v /\
  percent_charged (frame s') = Some (clamp_percent q) /\
  charge_status (frame s') = charge_status (frame s) /\
  battery_current_mA (frame s') = battery_current_mA (frame s) /\
  minutes (frame s') = minutes (frame s) /\
  exists l,
    error_msgs (frame s') = l ++ error_msgs (frame s) /\
    (error = ErrCell -> List.length l = 1%nat) /\
    (error = ErrNull -> l = []).
Proof.
  intros B P S.
  split; [rewrite get_status_unfold, B, P; cbv zeta; rewrite S; reflexivity |].
  apply get_bus_voltage_effect in B.
  destruct B as (_ & _ & _ & l1 & Bl & _ & Bok & _).
  specialize (Bok eq_refl). subst l1. rewrite frame_with_no_errors in Bl.
  apply get_shunt_voltage_effect in S.
  destruct S as (_ & _ & _ & l & -> & _ & _ & Snull & Sfail).
  cbn [with_voltage_percent frame_with_errors frame charge_status
       battery_voltage_mv percent_charged battery_current_mA minutes
       error_msgs].
  rewrite Bl. repeat split; auto. exists l. auto.
Qed.

(** The bus register is read, the read of the shunt register fails. *)
Lemma shunt_failure_outputs_witness :
  ina219_get_status ErrCell shunt_dead = Done false shunt_dead_end /\
  battery_voltage_mv (frame shunt_dead_end) = Some 7132 /\
  percent_charged (frame shunt_dead_end) = Some (clamp_percent 50) /\
  charge_status (frame shunt_dead_end) = charge_status (frame shunt_dead) /\
  battery_current_mA (frame shunt_dead_end)
    = battery_current_mA (frame shunt_dead) /\
  minutes (frame shunt_dead_end) = minutes (frame shunt_dead) /\
  exists l,
    error_msgs (frame shunt_dead_end) = l ++ error_msgs (frame shunt_dead) /\
    (ErrCell = ErrCell -> List.length l = 1%nat) /\
    (ErrCell = ErrNull -> l = []).
Proof.
  apply (shunt_failure_outputs ErrCell shunt_dead 7132 shunt_dead_bus 50
           shunt_dead_end).
  - vm_compute. reflexivity.
  - vm_compute. reflexivity.
  - vm_compute. reflexivity.
Defined.

(** C2, as the specification words it, fails: in the run [shunt_dead] the
    caller's battery voltage and percentage, unwritten before the call,
    hold 7132 and 50 after the failed call. *)
Lemma shunt_failure_keeps_partial_results :
  ~ (forall error s v s1 s',
       ina219_get_bus_voltage error s = Done (Some v) s1 ->
       ina219_get_status error s = Done false s' ->
       charge_status (frame s') = charge_status (frame s) /\
       battery_voltage_mv (frame s') = battery_voltage_mv (frame s) /\
       percent_charged (frame s') = percent_charged (frame s) /\
       battery_current_mA (frame s') = battery_current_mA (frame s) /\
       minutes (frame s') = minutes (frame s)).
Proof.
  intros H.
  destruct (H ErrCell shunt_dead 7132 shunt_dead_bus shunt_dead_end)
    as (_ & V & _).
  - vm_compute. reflexivity.
  - vm_compute. reflexivity.
  - discriminate V.
Qed.

(** C10.  Whichever of the four operations that take [char **error] is
    called: the call assigns the caller's [error] at most once, and not at
    all when it returns [TRUE]; an assignment happens only on a call that
    returns [FALSE]. *)
Theorem error_written_only_on_failure op error s ok s' :
  call op error s = Done ok s' ->
  exists l,
    error_msgs (frame s') = l ++ error_msgs (frame s) /\
    (List.length l <= 1)%nat /\
    (ok = true -> l = []) /\
    (l <> [] -> ok = false).
Proof.
  assert (T : forall reg (r : option Z) s1,
             transfer_effect reg error (succeeded r) s s1 ->
             ret (succeeded r) s1 = Done ok s' ->
             exists l,
               error_msgs (frame s') = l ++ error_msgs (frame s) /\
               (List.length l <= 1)%nat /\
               (ok = true -> l = []) /\
               (l <> [] -> ok = false)).
  { intros reg r s1 (_ & _ & _ & l & Hl & Hn & Hok & _) [= <- <-].
    exists l. rewrite Hl. cbn. repeat split; auto.
    destruct (succeeded r); [intros N; now elim N; apply Hok | reflexivity]. }
  destruct op; cbn [call]; intros H.
  - apply bind_Done in H. destruct H as (r & s1 & H & R).
    apply register_read_16_effect in H. eauto.
  - apply bind_Done in H. destruct H as (r & s1 & H & R).
    apply get_bus_voltage_effect in H. eauto.
  - apply bind_Done in H. destruct H as (r & s1 & H & R).
    apply get_shunt_voltage_effect in H. eauto.
  - apply get_status_effect in H.
    destruct H as (_ & _ & l & Hl & Hn & Hok & _).
    exists l. repeat split; auto.
    destruct ok; [intros N; now elim N; apply Hok | reflexivity].
Qed.

(** The status query on a bus that does not answer: one message, [FALSE]. *)
Lemma error_written_only_on_failure_witness :
  exists l,
    error_msgs (frame bus_dead_end) = l ++ error_msgs (frame bus_dead) /\
    (List.length l <= 1)%nat /\
    (false = true -> l = []) /\
    (l <> [] -> false = false).
Proof.
  apply (error_written_only_on_failure OpStatus ErrCell bus_dead false
           bus_dead_end).
  vm_compute. reflexivity.
Defined.

(** [ina219_get_status] from its two readings. *)
Lemma get_status_from_readings error s v s1 q sv s3 mA mins :
  ina219_get_bus_voltage error s = Done (Some v) s1 ->
  percent_expr (self s) v = Some q ->
  ina219_get_shunt_voltage error
    (with_voltage_percent v (clamp_percent q) s1) = Done (Some sv) s3 ->
  current_expr (self s) sv = Some mA ->
  minutes_expr (self s) (classification (self s) (clamp_percent q) mA)
               (clamp_percent q) mA = Some mins ->
  ina219_get_status error s
  = Done true (with_results (classification (self s) (clamp_percent q) mA)
                            v (clamp_percent q) mA mins s3).
Proof.
  intros B P S C Mi. rewrite get_status_unfold, B, P. cbv zeta.
  rewrite S, C, Mi. reflexivity.
Qed.

(** The figures of scenario A as the specification writes them, on the
    body of [ina219_get_status] after the bus read: with the
    configuration of main.c, a bus voltage of 7130 mV in hand and a shunt
    voltage read of 50 mV give 500 mA, 50 %, CHARGING and 144 minutes. *)
Theorem scenario_A_estimate error s s3 :
  battery_voltage_0_percent (self s) = 6000 ->
  battery_voltage_100_percent (self s) = 8260 ->
  battery_capacity (self s) = 2400 ->
  shunt_milliohms (self s) = 100 ->
  min_charging_current (self s) = 10 ->
  ina219_get_shunt_voltage error (with_voltage_percent 7130 50 s)
    = Done (Some 50) s3 ->
  status_with_bus_voltage (self s) 7130 error s
    = Done true (with_results INA219_CHARGING 7130 50 500 144 s3) /\
  percent_expr (self s) 7130 = Some 50 /\
  current_expr (self s) 50 = Some 500 /\
  capacity_expr (self s) (100 - 50) = Some 1200 /\
  double_div (double_of_int (3600 * 1200)) (double_of_int 500)
    = double_of_int 8640 /\
  seconds_expr 1200 500 = Some 8640 /\
  Z.quot 8640 60 = 144.
Proof.
  intros H0 H100 Hcap Hsh Hmin S.
  assert (P : percent_expr (self s) 7130 = Some 50)
    by (unfold percent_expr; rewrite H0, H100; reflexivity).
  assert (C : current_expr (self s) 50 = Some 500)
    by (unfold current_expr; rewrite Hsh; reflexivity).
  assert (R : capacity_expr (self s) (100 - 50) = Some 1200)
    by (unfold capacity_expr; rewrite Hcap; reflexivity).
  assert (T : seconds_expr 1200 500 = Some 8640) by (vm_compute; reflexivity).
  assert (K : classification (self s) 50 500 = INA219_CHARGING)
    by (unfold classification; rewrite Hmin; reflexivity).
  split; [| repeat split; try assumption; vm_compute; reflexivity].
  rewrite status_with_bus_voltage_unfold, P.
  change (clamp_percent 50) with 50. cbv zeta.
  rewrite S, C, K.
  unfold minutes_expr. cbn [status_eqb].
  change (0 <=? 500) with true. cbv iota.
  change (c_sub 100 50) with (Some (100 - 50)). cbv iota.
  rewrite R, T. reflexivity.
Qed.

(** The shunt register holds 0x1388 = 5000 (50 mV). *)
Lemma scenario_A_estimate_witness :
  status_with_bus_voltage (self scenario_A_shunt) 7130 ErrCell scenario_A_shunt
    = Done true (with_results INA219_CHARGING 7130 50 500 144
                   scenario_A_shunt_read) /\
  percent_expr (self scenario_A_shunt) 7130 = Some 50 /\
  current_expr (self scenario_A_shunt) 50 = Some 500 /\
  capacity_expr (self scenario_A_shunt) (100 - 50) = Some 1200 /\
  double_div (double_of_int (3600 * 1200)) (double_of_int 500)
    = double_of_int 8640 /\
  seconds_expr 1200 500 = Some 8640 /\
  Z.quot 8640 60 = 144.
Proof.
  apply (scenario_A_estimate ErrCell scenario_A_shunt scenario_A_shunt_read);
    vm_compute; reflexivity.
Defined.

(** The same scenario on the wire.  No content of the bus register
    decodes to 7130 mV (see [bus_voltage_never_7130]); with 7132 mV the
    percentage is still 50 and the run ends as in the scenario. *)
Lemma scenario_A_on_the_wire :
  ina219_get_status ErrCell scenario_A = Done true scenario_A_end /\
  frame scenario_A_end
  = mkFrame (Some INA219_CHARGING) (Some 7132) (Some 50) (Some 500)
            (Some 144) [].
Proof. split; vm_compute; reflexivity. Qed.

(** Decoded bus voltages are multiples of 4 mV. *)
Lemma bus_voltage_never_7130 :
  ~ exists error s s', ina219_get_bus_voltage error s = Done (Some 7130) s'.
Proof.
  intros (error & s & s' & H). rewrite get_bus_voltage_unfold in H.
  destruct (ina219_register_read_16 BUS_REG error s) as [[r |] s1 | c];
    try discriminate.
  injection H as H _. rewrite bus_decode_by_4 in H. lia.
Qed.




(** C3, where the code departs from it.  The write of the register index
    fails ([write] returns -1 and sets [errno]); [if (write (...))] takes
    -1 for success, the read delivers two bytes, and the operation returns
    [TRUE] with a value and no message. *)
Theorem failed_write_goes_unnoticed :
  sys_write1 3 BUS_REG (kernel write_fails)
  = (-1, set_errno 121 (log (SysWrite 3 BUS_REG) (kernel write_fails))) /\
  ina219_register_read_16 BUS_REG ErrCell write_fails
  = Done (Some 14264) write_fails_end /\
  error_msgs (frame write_fails_end) = [].
Proof. repeat split; vm_compute; reflexivity. Qed.

(** The parts of C3 that hold: a write that transfers no byte, and a read
    that returns anything but 2, make the operation fail with its
    message. *)
Lemma register_read_16_no_byte_written reg error s k1 :
  0 <= fd (self s) ->
  sys_write1 (fd (self s)) reg (kernel s) = (0, k1) ->
  ina219_register_read_16 reg error s
  = Done None
      (mkState k1 (self s)
         (frame_with_errors
            (io_message error "Failed to write I2C device: " k1) (frame s))).
Proof.
  intros Hfd W. rewrite register_read_16_unfold, W.
  destruct (Z.leb_spec 0 (fd (self s))); [reflexivity | lia].
Qed.

Lemma register_read_16_short_read reg error s w k1 r buff k2 :
  0 <= fd (self s) ->
  sys_write1 (fd (self s)) reg (kernel s) = (w, k1) -> w <> 0 ->
  sys_read2 (fd (self s)) (reg, x00) k1 = (r, buff, k2) -> r <> 2 ->
  ina219_register_read_16 reg error s
  = Done None
      (mkState k2 (self s)
         (frame_with_errors
            (io_message error "Failed to read I2C device: " k2) (frame s))).
Proof.
  intros Hfd W Hw R Hr. rewrite register_read_16_unfold, W, R.
  destruct (Z.leb_spec 0 (fd (self s))); [| lia].
  destruct (Z.eqb_spec w 0); [contradiction |].
  destruct (Z.eqb_spec r 2); [contradiction | reflexivity].
Qed.

(** Success is decided by [write (...) != 0] and [read (...) == 2]. *)
Lemma register_read_16_success reg error s v s' :
  ina219_register_read_16 reg error s = Done (Some v) s' ->
  exists w k1 buff k2,
    sys_write1 (fd (self s)) reg (kernel s) = (w, k1) /\ w <> 0 /\
    sys_read2 (fd (self s)) (reg, x00) k1 = (2, buff, k2).
Proof.
  rewrite register_read_16_unfold.
  destruct (0 <=? fd (self s)); [| discriminate].
  destruct (sys_write1 _ _ _) as [w k1] eqn:W.
  destruct (Z.eqb_spec w 0); [discriminate |]. cbn [negb].
  destruct (sys_read2 _ _ _) as [[r buff] k2] eqn:R.
  destruct (Z.eqb_spec r 2); [subst r | discriminate].
  intros _. exists w, k1, buff, k2. auto.
Qed.

(* ====================================================================== *)
(** ** The transport handle *)
(* ====================================================================== *)

Lemma fd_lookup_head d b t : fd_lookup d ((d, b) :: t) = Some b.
Proof. cbn. now rewrite Z.eqb_refl. Qed.

(** The three ways [ina219_init] can return: bound; [open] failed and the
    handle is closed; the bind failed and the descriptor stays in
    [self->fd], open and bound to nothing. *)
Lemma init_cases error s b s' :
  ina219_init error s = Done b s' ->
  (b = true /\ handle_open_and_bound s' = true) \/
  (b = false /\ fd (self s') = -1) \/
  (b = false /\ 0 <= fd (self s') /\
   fd_lookup (fd (self s')) (fds (kernel s')) = Some None).
Proof.
  unfold ina219_init. step.
  unfold bind at 1, syscall, sys_open.
  destruct (next_reply (kernel s)) as [e | n p]; cbv beta iota.
  - step. destruct error; [discriminate |]. repeat step.
    intros [= <- <-]. right. left. split; reflexivity.
  - step. destruct (Z.leb_spec 0 (Z.of_N n)); [| lia].
    unfold bind at 1, syscall, sys_ioctl_slave.
    cbn [kernel self frame].
    destruct (next_reply _) as [e | m q]; cbv beta iota.
    + destruct error; [discriminate |]. repeat step.
      intros [= <- <-]. right. right.
      cbn [self kernel fd with_fd fds set_fds set_errno log update_frame frame].
      rewrite fd_lookup_head. auto.
    + cbn [Z.leb Z.compare]. intros [= <- <-]. left. split; [reflexivity |].
      unfold handle_open_and_bound.
      cbn [self kernel fd with_fd i2c_addr fds set_fds log].
      rewrite fd_lookup_head, Z.eqb_refl.
      destruct (Z.leb_spec 0 (Z.of_N n)); [reflexivity | lia].
Qed.

(** [ina219_uninit] always returns, and leaves the handle closed. *)
Lemma uninit_closes s :
  exists s', ina219_uninit s = Done tt s' /\ handle_closed s' = true.
Proof.
  unfold ina219_uninit. step.
  destruct (0 <=? fd (self s)); repeat step; eexists; split; reflexivity.
Qed.

(** The read operations keep the handle as it is. *)
Lemma call_keeps_handle op error s b s' :
  call op error s = Done b s' ->
  handle_invariant s' = handle_invariant s.
Proof.
  intros H.
  assert (E : self s' = self s /\ fds (kernel s') = fds (kernel s)).
  { destruct op; cbn [call] in H.
    - apply bind_Done in H. destruct H as (r & s1 & H & [= _ <-]).
      apply register_read_16_effect in H. destruct H as (? & ? & _). auto.
    - apply bind_Done in H. destruct H as (r & s1 & H & [= _ <-]).
      apply get_bus_voltage_effect in H. destruct H as (? & ? & _). auto.
    - apply bind_Done in H. destruct H as (r & s1 & H & [= _ <-]).
      apply get_shunt_voltage_effect in H. destruct H as (? & ? & _). auto.
    - apply get_status_effect in H. destruct H as (? & ? & _). auto. }
  destruct E as [Hs Hf].
  unfold handle_invariant, handle_closed, handle_open_and_bound.
  now rewrite Hs, Hf.
Qed.

(** One operation of a clean run keeps the invariant. *)
Lemma run_op_keeps_invariant o s b s' :
  handle_invariant s = true ->
  run_op o s = Done b s' ->
  bind_failed o b s' = false ->
  handle_invariant s' = true.
Proof.
  intros I H Hc. destruct o as [error | | op error]; cbn [run_op] in H.
  - apply init_cases in H. unfold handle_invariant.
    destruct H as [[_ ->] | [[_ C] | (-> & P & _)]].
    + apply orb_true_r.
    + unfold handle_closed. rewrite C. reflexivity.
    + cbn [bind_failed negb andb] in Hc.
      destruct (Z.leb_spec 0 (fd (self s'))); [discriminate | lia].
  - apply bind_Done in H. destruct H as ([] & s1 & H & [= _ <-]).
    destruct (uninit_closes s) as (s2 & U & C).
    rewrite U in H. injection H as <-.
    unfold handle_invariant. now rewrite C.
  - rewrite (call_keeps_handle _ _ _ _ _ H). exact I.
Qed.

(** C8, as the code has it.  Over every sequence of [ina219_init],
    [ina219_uninit] and read operations in which no [ina219_init] fails
    at the bind step, a transport handle that is closed, or open and
    bound to the configured address, stays so.  In particular a
    successful [ina219_init] leaves it open and bound, and
    [ina219_uninit], and an [ina219_init] whose [open] failed, leave it
    closed. *)
Theorem handle_invariant_preserved ops s s' :
  handle_invariant s = true ->
  runs_clean ops s s' ->
  handle_invariant s' = true /\
  (forall error s0 s1,
     ina219_init error s0 = Done true s1 -> handle_open_and_bound s1 = true) /\
  (forall error s0 s1,
     ina219_init error s0 = Done false s1 -> fd (self s1) < 0 ->
     handle_closed s1 = true) /\
  (forall s0 s1, ina219_uninit s0 = Done tt s1 -> handle_closed s1 = true).
Proof.
  intros I R. split; [| split; [| split]].
  - induction R as [s | o ops s b s1 s2 H Hc R IH]; [exact I |].
    apply IH. eapply run_op_keeps_invariant; eassumption.
  - intros error s0 s1 H. apply init_cases in H.
    destruct H as [[_ B] | [[? _] | [? _]]]; [exact B | |]; discriminate.
  - intros error s0 s1 H Hfd. apply init_cases in H. unfold handle_closed.
    destruct H as [[? _] | [[_ C] | (_ & P & _)]];
      [discriminate | rewrite C; reflexivity | lia].
  - intros s0 s1 H. destruct (uninit_closes s0) as (s2 & U & C).
    rewrite U in H. injection H as <-. exact C.
Qed.

(** Open, query, close on a healthy bus. *)
Lemma handle_invariant_preserved_witness :
  handle_invariant healthy_closed = true /\
  (forall error s0 s1,
     ina219_init error s0 = Done true s1 -> handle_open_and_bound s1 = true) /\
  (forall error s0 s1,
     ina219_init error s0 = Done false s1 -> fd (self s1) < 0 ->
     handle_closed s1 = true) /\
  (forall s0 s1, ina219_uninit s0 = Done tt s1 -> handle_closed s1 = true).
Proof.
  apply (handle_invariant_preserved
           [OpInit ErrCell; OpRead OpStatus ErrCell; OpUninit]
           healthy healthy_closed).
  - vm_compute. reflexivity.
  - apply (clean_cons _ _ _ true healthy_open);
      [vm_compute; reflexivity | vm_compute; reflexivity |].
    apply (clean_cons _ _ _ true healthy_read);
      [vm_compute; reflexivity | vm_compute; reflexivity |].
    apply (clean_cons _ _ _ true healthy_closed);
      [vm_compute; reflexivity | vm_compute; reflexivity |].
    apply clean_nil.
Defined.

(** C8, as the specification words it, fails.  [open] succeeds and the
    [I2C_SLAVE] ioctl fails: [ina219_init] returns [FALSE], yet
    [self->fd] is the descriptor [open] returned, still open in the
    kernel and bound to no address.  The handle, closed before the call,
    is neither closed nor open-and-bound after it. *)
Lemma failed_bind_leaves_handle_open :
  handle_closed bind_fails = true /\
  ina219_init ErrCell bind_fails = Done false bind_fails_end /\
  fd (self bind_fails_end) = 3 /\
  fd_lookup 3 (fds (kernel bind_fails_end)) = Some None /\
  handle_closed bind_fails_end = false /\
  handle_open_and_bound bind_fails_end = false /\
  handle_invariant bind_fails_end = false.
Proof. repeat split; vm_compute; reflexivity. Qed.

(* ====================================================================== *)
(** ** Further properties of the register transport *)
(* ====================================================================== *)

Lemma byte_val_range b : 0 <= byte_val b <= 255.
Proof.
  unfold byte_val. pose proof (Byte.to_N_bounded b). lia.
Qed.

Lemma word_of_bytes hi lo :
  Z.lor (Z.shiftl (byte_val hi) 8) (byte_val lo) = 256 * byte_val hi + byte_val lo.
Proof.
  pose proof (byte_val_range hi). pose proof (byte_val_range lo).
  rewrite Z.shiftl_mul_pow2 by lia.
  assert (D : Z.land (byte_val hi * 2 ^ 8) (byte_val lo) = 0);
    [| rewrite <- (Z.lxor_lor _ _ D), <- (Z.add_nocarry_lxor _ _ D); lia].
  apply Z.bits_inj'. intros n Hn. rewrite Z.land_spec, Z.bits_0.
  destruct (Z.lt_ge_cases n 8).
  - rewrite Z.mul_pow2_bits_low by lia. reflexivity.
  - replace (Z.testbit (byte_val lo) n) with false; [now rewrite andb_false_r |].
    symmetry. destruct (Z.eq_dec (byte_val lo) 0) as [-> | ?]; [apply Z.bits_0 |].
    apply Z.bits_above_log2; [lia |].
    assert (Z.log2 (byte_val lo) < 8) by (apply Z.log2_lt_pow2; lia). lia.
Qed.

Lemma int16_of_its_bytes x :
  - 32768 <= x <= 32767 ->
  to_int16 (256 * high_byte x + low_byte x) = x.
Proof.
  intros Hx. unfold to_int16, high_byte, low_byte.
  change (2 ^ 16) with 65536. change (2 ^ 15) with 32768.
  Z.div_mod_to_equations. lia.
Qed.

(** X1.  The register value is assembled high byte first: when the write
    of the register index is accepted and the read delivers the two bytes
    [hi], [lo], the operation returns [TRUE] with
    [(int16_t) (256 * hi + lo)], changing nothing but the kernel; so a
    register that holds the [int16_t] [x] is read back as [x]. *)
Theorem register_read_16_big_endian reg error s w k1 hi lo k2 x :
  0 <= fd (self s) ->
  sys_write1 (fd (self s)) reg (kernel s) = (w, k1) -> w <> 0 ->
  sys_read2 (fd (self s)) (reg, x00) k1 = (2, (hi, lo), k2) ->
  - 32768 <= x <= 32767 ->
  byte_val hi = high_byte x -> byte_val lo = low_byte x ->
  ina219_register_read_16 reg error s
  = Done (Some (to_int16 (256 * byte_val hi + byte_val lo)))
         (mkState k2 (self s) (frame s)) /\
  to_int16 (256 * byte_val hi + byte_val lo) = x.
Proof.
  intros Hfd W Hw R Hx Hhi Hlo.
  split; [| rewrite Hhi, Hlo; now apply int16_of_its_bytes].
  rewrite register_read_16_unfold, W, R.
  destruct (Z.leb_spec 0 (fd (self s))); [| lia].
  destruct (Z.eqb_spec w 0); [contradiction |].
  cbn [negb Z.eqb fst snd]. rewrite word_of_bytes. reflexivity.
Qed.

(** The shunt register holds -3050 = 0xF416. *)
Lemma register_read_16_big_endian_witness :
  ina219_register_read_16 SHUNT_REG ErrCell (demo_state [ack; word xf4 x16])
  = Done (Some (to_int16 (256 * byte_val xf4 + byte_val x16)))
         (mkState (after_transfer SHUNT_REG
                     (kernel (demo_state [ack; word xf4 x16])))
                  (self (demo_state [ack; word xf4 x16]))
                  (frame (demo_state [ack; word xf4 x16]))) /\
  to_int16 (256 * byte_val xf4 + byte_val x16) = - 3050.
Proof.
  apply (register_read_16_big_endian SHUNT_REG ErrCell
           (demo_state [ack; word xf4 x16]) 1
           (log (SysWrite 3 SHUNT_REG) (kernel (demo_state [ack; word xf4 x16])))
           xf4 x16
           (after_transfer SHUNT_REG (kernel (demo_state [ack; word xf4 x16])))
           (- 3050));
    first [vm_compute; reflexivity | lia | cbn; lia].
Defined.

(** The system calls of one register read, newest first. *)
Lemma register_read_16_calls reg error s r s' :
  ina219_register_read_16 reg error s = Done r s' ->
  exists evs,
    trace (kernel s') = evs ++ trace (kernel s) /\
    (succeeded r = true ->
     evs = [SysRead (fd (self s)) 2; SysWrite (fd (self s)) reg]) /\
    (evs = [SysWrite (fd (self s)) reg] \/
     evs = [SysRead (fd (self s)) 2; SysWrite (fd (self s)) reg]).
Proof.
  rewrite register_read_16_unfold.
  destruct (0 <=? fd (self s)); [| discriminate].
  destruct (sys_write1 _ _ _) as [w k1] eqn:W.
  apply sys_write1_effect in W. destruct W as (_ & Wt & _).
  destruct (negb (w =? 0)).
  - destruct (sys_read2 _ _ _) as [[r2 buff] k2] eqn:R.
    apply sys_read2_effect in R. destruct R as (_ & Rt & _).
    destruct (r2 =? 2); intros [= <- <-]; cbn [kernel];
      (exists [SysRead (fd (self s)) 2; SysWrite (fd (self s)) reg];
       split; [rewrite Rt, Wt; reflexivity | auto]).
  - intros [= <- <-]; cbn [kernel succeeded].
    exists [SysWrite (fd (self s)) reg].
    split; [rewrite Wt; reflexivity |]. split; [discriminate | auto].
Qed.

(** X3.  A status query talks to the device in a fixed order: the index
    of the bus register is written and two bytes are read, then the same
    for the shunt register.  A completed call has made the first one to
    four of these system calls, on [self->fd], and no other; a call that
    returns [TRUE] has made all four. *)
Theorem get_status_calls error s b s' :
  ina219_get_status error s = Done b s' ->
  exists n,
    (1 <= n <= 4)%nat /\
    trace (kernel s') = first_calls n (fd (self s)) ++ trace (kernel s) /\
    (b = true -> n = 4%nat).
Proof.
  intros H. apply get_status_cases in H.
  destruct H as [[-> B] | (v & s1 & q & B & _ & H)].
  - apply get_bus_voltage_read in B. destruct B as (r0 & B & _).
    apply register_read_16_calls in B. destruct B as (evs & -> & _ & [-> | ->]).
    + exists 1%nat. split; [lia |]. split; [reflexivity | discriminate].
    + exists 2%nat. split; [lia |]. split; [reflexivity | discriminate].
  - pose proof (get_bus_voltage_effect _ _ _ _ B) as (Bs & _).
    apply get_bus_voltage_read in B. destruct B as (r0 & B & Br).
    apply register_read_16_calls in B. destruct B as (e1 & Bt & Bok & _).
    rewrite Br in Bok. specialize (Bok eq_refl). subst e1.
    assert (S : forall r s3,
               ina219_get_shunt_voltage error
                 (with_voltage_percent v (clamp_percent q) s1) = Done r s3 ->
               exists n,
                 (3 <= n <= 4)%nat /\
                 trace (kernel s3) = first_calls n (fd (self s)) ++ trace (kernel s) /\
                 (succeeded r = true -> n = 4%nat)).
    { intros r s3 S. apply get_shunt_voltage_read in S.
      destruct S as (r1 & S & Sr).
      apply register_read_16_calls in S.
      cbn [with_voltage_percent kernel self] in S. rewrite Bs, Bt in S.
      destruct S as (evs & -> & Sok & [-> | ->]).
      - exists 3%nat. split; [lia |]. split; [reflexivity |].
        intros E. rewrite <- Sr in E. specialize (Sok E). discriminate.
      - exists 4%nat. split; [lia |]. split; [reflexivity | reflexivity]. }
    destruct H as [[-> H] | (sv & s3 & mA & mins & H & _ & _ & -> & ->)].
    + apply S in H. destruct H as (n & Hn & Ht & _).
      exists n. split; [lia |]. split; [exact Ht | discriminate].
    + apply S in H. destruct H as (n & Hn & Ht & Hok).
      exists n. cbn [with_results kernel]. split; [lia |]. split; auto.
Qed.

Lemma get_status_calls_witness :
  exists n,
    (1 <= n <= 4)%nat /\
    trace (kernel scenario_A_end)
    = first_calls n (fd (self scenario_A)) ++ trace (kernel scenario_A) /\
    (true = true -> n = 4%nat).
Proof.
  apply (get_status_calls ErrCell scenario_A true scenario_A_end).
  vm_compute. reflexivity.
Defined.

(** X4.  The bus voltage is four millivolts times the 13-bit field in
    bits 3 to 15 of the register, so a multiple of 4 below 32768; the
    three low bits (the flags of the chip) do not enter, whatever they
    are. *)
Theorem bus_voltage_is_field_times_4 error s regval s' :
  ina219_register_read_16 BUS_REG error s = Done (Some regval) s' ->
  exists k,
    k = (regval / 8) mod 2 ^ 13 /\ 0 <= k <= 8191 /\
    ina219_get_bus_voltage error s = Done (Some (4 * k)) s' /\
    forall flags, 0 <= flags < 8 ->
      Z.shiftr (Z.land (8 * (regval / 8) + flags) 0xFFF8) 1 = 4 * k.
Proof.
  intros H. exists ((regval / 8) mod 2 ^ 13).
  split; [reflexivity |].
  split; [pose proof (Z.mod_pos_bound (regval / 8) (2 ^ 13)); lia |].
  split.
  - rewrite get_bus_voltage_unfold, H, bus_decode_by_4. reflexivity.
  - intros flags Hf. rewrite bus_decode_by_4. do 2 f_equal.
    rewrite Z.mul_comm, Z.div_add_l by lia.
    rewrite (Z.div_small flags 8) by lia. lia.
Qed.

(** The register holds 0x37BB: 7132 mV with two flags set. *)
Lemma bus_voltage_is_field_times_4_witness :
  exists k,
    k = (14267 / 8) mod 2 ^ 13 /\ 0 <= k <= 8191 /\
    ina219_get_bus_voltage ErrCell (demo_state [ack; word x37 xbb])
    = Done (Some (4 * k))
           (mkState (after_transfer BUS_REG
                       (kernel (demo_state [ack; word x37 xbb])))
                    (demo_config 3) blank_frame) /\
    forall flags, 0 <= flags < 8 ->
      Z.shiftr (Z.land (8 * (14267 / 8) + flags) 0xFFF8) 1 = 4 * k.
Proof.
  apply (bus_voltage_is_field_times_4 ErrCell (demo_state [ack; word x37 xbb])
           14267).
  vm_compute. reflexivity.
Defined.

(** X16.  A transfer that fails short sets no [errno]: the message the
    caller gets describes whatever [errno] held before the call, not this
    failure. *)
Theorem short_transfer_reports_stale_errno reg s :
  0 <= fd (self s) ->
  short_transfer s = true ->
  exists pre s',
    ina219_register_read_16 reg ErrCell s = Done None s' /\
    errno (kernel s') = errno (kernel s) /\
    (pre = "Failed to write I2C device: "%string \/
     pre = "Failed to read I2C device: "%string) /\
    error_msgs (frame s')
    = (pre ++ strerror (kernel s) (errno (kernel s)) ++ newline)%string
        :: error_msgs (frame s).
Proof.
  intros Hfd Hs. unfold short_transfer, next_reply in Hs.
  rewrite register_read_16_unfold.
  destruct (Z.leb_spec 0 (fd (self s))); [| lia].
  unfold sys_write1, sys_read2, next_reply.
  destruct (oracle (kernel s) (List.length (trace (kernel s)))) as [e | n p];
    [discriminate |].
  destruct (N.eqb_spec n 0) as [-> | Hn].
  - cbn. exists "Failed to write I2C device: "%string. eexists.
    split; [reflexivity |]. cbn. auto.
  - assert (W : (Z.min (Z.of_N n) 1 =? 0) = false) by (apply Z.eqb_neq; lia).
    rewrite W. cbn [negb oracle trace log List.length].
    destruct (oracle (kernel s) _) as [e | m r]; [discriminate |].
    apply N.ltb_lt in Hs.
    assert (R : (Z.min (Z.of_N m) 2 =? 2) = false) by (apply Z.eqb_neq; lia).
    rewrite R. exists "Failed to read I2C device: "%string. eexists.
    split; [reflexivity |]. cbn. auto.
Qed.

Lemma short_transfer_reports_stale_errno_witness :
  exists pre s',
    ina219_register_read_16 BUS_REG ErrCell short_read = Done None s' /\
    errno (kernel s') = errno (kernel short_read) /\
    (pre = "Failed to write I2C device: "%string \/
     pre = "Failed to read I2C device: "%string) /\
    error_msgs (frame s')
    = (pre ++ strerror (kernel short_read) (errno (kernel short_read))
           ++ newline)%string
        :: error_msgs (frame short_read).
Proof.
  apply (short_transfer_reports_stale_errno BUS_REG short_read).
  - vm_compute. discriminate.
  - vm_compute. reflexivity.
Defined.

(* ====================================================================== *)
(** ** Further properties of the status estimator *)
(* ====================================================================== *)

(** The percentage a completed status query stores. *)
Lemma get_status_percent error s b s' v s1 :
  ina219_get_bus_voltage error s = Done (Some v) s1 ->
  ina219_get_status error s = Done b s' ->
  exists q,
    percent_expr (self s) v = Some q /\
    percent_charged (frame s') = Some (clamp_percent q).
Proof.
  intros B H. apply get_status_cases in H.
  destruct H as [[_ B'] | (v' & s1' & q & B' & P & H)]; [congruence |].
  rewrite B in B'. injection B' as <- <-.
  exists q. split; [assumption |].
  destruct H as [[_ S] | (sv & s3 & mA & mins & _ & _ & _ & _ & ->)];
    [| reflexivity].
  apply get_shunt_voltage_effect in S. destruct S as (_ & _ & _ & l & -> & _).
  reflexivity.
Qed.

(** X5.  The reported percentage never decreases when the bus voltage
    rises: of two completed status queries under the same configuration,
    with the 100 % voltage above the 0 % voltage, the one that read the
    higher bus voltage stores the higher or the same percentage. *)
Theorem percent_monotone ea eb sa sb va vb sa1 sb1 ba bb sa' sb' :
  self sb = self sa ->
  battery_voltage_0_percent (self sa) < battery_voltage_100_percent (self sa) ->
  ina219_get_bus_voltage ea sa = Done (Some va) sa1 ->
  ina219_get_status ea sa = Done ba sa' ->
  ina219_get_bus_voltage eb sb = Done (Some vb) sb1 ->
  ina219_get_status eb sb = Done bb sb' ->
  va <= vb ->
  exists pa pb,
    percent_charged (frame sa') = Some pa /\
    percent_charged (frame sb') = Some pb /\
    pa <= pb.
Proof.
  intros Hcfg Hlt Ba Ha Bb Hb Hv.
  destruct (get_status_percent _ _ _ _ _ _ Ba Ha) as (qa & Pa & Fa).
  destruct (get_status_percent _ _ _ _ _ _ Bb Hb) as (qb & Pb & Fb).
  rewrite Hcfg in Pb.
  apply percent_expr_value in Pa, Pb. destruct Pa as [_ ->], Pb as [_ ->].
  eexists _, _. split; [exact Fa |]. split; [exact Fb |].
  assert (Z.quot (100 * (va - battery_voltage_0_percent (self sa)))
                 (battery_voltage_100_percent (self sa)
                  - battery_voltage_0_percent (self sa))
          <= Z.quot (100 * (vb - battery_voltage_0_percent (self sa)))
                    (battery_voltage_100_percent (self sa)
                     - battery_voltage_0_percent (self sa)))
    by (apply Z.quot_le_mono; lia).
  unfold clamp_percent. lia.
Qed.

(** Scenario A (7132 mV, 50 %) and scenario C (8300 mV, 100 %). *)
Lemma percent_monotone_witness :
  exists pa pb,
    percent_charged (frame scenario_A_end) = Some pa /\
    percent_charged (frame scenario_C_end) = Some pb /\
    pa <= pb.
Proof.
  apply (percent_monotone ErrCell ErrCell scenario_A scenario_C 7132 8300
           (mkState (after_transfer BUS_REG (kernel scenario_A))
                    (demo_config 3) blank_frame)
           scenario_C_bus true true);
    first [vm_compute; reflexivity | cbn; lia | lia].
Defined.

(** X6.  [ina219_create] takes any two voltages.  When the 0 % and the
    100 % voltage are equal, a status query whose bus read succeeds
    divides by zero: it is undefined, and returns nothing. *)
Theorem equal_voltages_undefined error s v s1 :
  battery_voltage_100_percent (self s) = battery_voltage_0_percent (self s) ->
  ina219_get_bus_voltage error s = Done (Some v) s1 ->
  ina219_get_status error s = Stop Undefined.
Proof.
  intros E B. rewrite get_status_unfold, B.
  unfold percent_expr, c_sub, c_div. rewrite E, Z.sub_diag.
  change (checked 0) with (Some 0).
  destruct (checked (v - _)) as [d |]; [| reflexivity].
  destruct (c_mul 100 d); reflexivity.
Qed.

Lemma equal_voltages_undefined_witness :
  ina219_get_status ErrCell
    (custom_state flat_config [ack; word x37 xb8; ack; word x13 x88])
  = Stop Undefined.
Proof.
  apply (equal_voltages_undefined ErrCell
           (custom_state flat_config [ack; word x37 xb8; ack; word x13 x88])
           7132
           (mkState (after_transfer BUS_REG
                       (kernel (custom_state flat_config
                                  [ack; word x37 xb8; ack; word x13 x88])))
                    flat_config blank_frame));
    vm_compute; reflexivity.
Defined.

(** The shunt voltage read is at most 327 mV either way. *)
Lemma get_shunt_voltage_range error s sv s' :
  ina219_get_shunt_voltage error s = Done (Some sv) s' -> - 327 <= sv <= 327.
Proof.
  rewrite get_shunt_voltage_unfold.
  destruct (ina219_register_read_16 SHUNT_REG error s) as [[r |] s1 | c] eqn:R;
    try discriminate.
  intros [= <- _]. apply register_read_16_range in R.
  assert (Z.quot (- 32768) 100 <= Z.quot r 100) by (apply Z.quot_le_mono; lia).
  assert (Z.quot r 100 <= Z.quot 32767 100) by (apply Z.quot_le_mono; lia).
  change (Z.quot (- 32768) 100) with (- 327) in *.
  change (Z.quot 32767 100) with 327 in *. lia.
Qed.

(** The current expression: undefined for a zero shunt resistance only. *)
Lemma current_expr_value o sv :
  - 327 <= sv <= 327 ->
  (shunt_milliohms o = 0 -> current_expr o sv = None) /\
  (shunt_milliohms o <> 0 ->
   current_expr o sv = Some (Z.quot (sv * 1000) (shunt_milliohms o)) /\
   Z.abs (Z.quot (sv * 1000) (shunt_milliohms o)) <= 327000).
Proof.
  intros Hsv. unfold current_expr, c_mul, c_div, checked.
  assert (I : in_int (sv * 1000) = true) by (apply in_int_bounds; lia).
  rewrite I. split; intros Hz.
  - rewrite Hz. reflexivity.
  - destruct (Z.eqb_spec (shunt_milliohms o) 0); [contradiction |].
    assert (A : Z.abs (Z.quot (sv * 1000) (shunt_milliohms o)) <= 327000).
    { rewrite <- Z.quot_abs by assumption.
      assert (Z.quot (Z.abs (sv * 1000)) (Z.abs (shunt_milliohms o))
              <= Z.abs (sv * 1000)); [| lia].
      apply Z.quot_le_upper_bound; [lia |].
      assert (1 <= Z.abs (shunt_milliohms o)) by lia.
      assert (0 <= Z.abs (sv * 1000)) by lia. nia. }
    split; [| exact A].
    assert (J : in_int (Z.quot (sv * 1000) (shunt_milliohms o)) = true)
      by (apply in_int_bounds; lia).
    now rewrite J.
Qed.

(** X7.  With a zero shunt resistance, which [ina219_create] accepts, a
    status query whose two reads succeed divides by zero: it is
    undefined, and returns nothing. *)
Theorem zero_shunt_undefined error s v s1 q sv s3 :
  shunt_milliohms (self s) = 0 ->
  ina219_get_bus_voltage error s = Done (Some v) s1 ->
  percent_expr (self s) v = Some q ->
  ina219_get_shunt_voltage error (with_voltage_percent v (clamp_percent q) s1)
    = Done (Some sv) s3 ->
  ina219_get_status error s = Stop Undefined.
Proof.
  intros Z0 B P S. rewrite get_status_unfold, B, P. cbv zeta. rewrite S.
  pose proof (get_shunt_voltage_range _ _ _ _ S) as R.
  destruct (current_expr_value (self s) sv R) as [N _].
  now rewrite (N Z0).
Qed.

Lemma zero_shunt_undefined_witness :
  ina219_get_status ErrCell
    (custom_state no_shunt_config [ack; word x37 xb8; ack; word x13 x88])
  = Stop Undefined.
Proof.
  apply (zero_shunt_undefined ErrCell
           (custom_state no_shunt_config [ack; word x37 xb8; ack; word x13 x88])
           7132
           (mkState (after_transfer BUS_REG
                       (kernel (custom_state no_shunt_config
                                  [ack; word x37 xb8; ack; word x13 x88])))
                    no_shunt_config blank_frame)
           50 50
           (mkState (after_transfer SHUNT_REG
                       (after_transfer BUS_REG
                          (kernel (custom_state no_shunt_config
                                     [ack; word x37 xb8; ack; word x13 x88]))))
                    no_shunt_config
                    (mkFrame None (Some 7132) (Some 50) None None [])));
    vm_compute; reflexivity.
Defined.

(** X8.  The current a successful status query stores is the shunt
    voltage its shunt read returned, times 1000, divided by the shunt
    resistance with the quotient truncated; that shunt voltage is at most
    327 mV either way, so the product never overflows and the current is
    at most 327000 mA in magnitude. *)
Theorem battery_current_value error s s' :
  ina219_get_status error s = Done true s' ->
  exists v s1 p sv s3,
    ina219_get_bus_voltage error s = Done (Some v) s1 /\
    percent_charged (frame s') = Some p /\
    ina219_get_shunt_voltage error (with_voltage_percent v p s1)
      = Done (Some sv) s3 /\
    - 327 <= sv <= 327 /\
    shunt_milliohms (self s) <> 0 /\
    battery_current_mA (frame s')
    = Some (Z.quot (sv * 1000) (shunt_milliohms (self s))) /\
    Z.abs (Z.quot (sv * 1000) (shunt_milliohms (self s))) <= 327000.
Proof.
  intros H. apply get_status_cases in H.
  destruct H as [[? _] | (v & s1 & q & B & P & [[? _] | H])]; try discriminate.
  destruct H as (sv & s3 & mA & mins & S & C & _ & _ & ->).
  pose proof (get_shunt_voltage_range _ _ _ _ S) as R.
  destruct (current_expr_value (self s) sv R) as [N V].
  exists v, s1, (clamp_percent q), sv, s3.
  split; [exact B |]. split; [reflexivity |]. split; [exact S |].
  split; [exact R |].
  destruct (Z.eq_dec (shunt_milliohms (self s)) 0) as [Z0 | NZ].
  - rewrite (N Z0) in C. discriminate.
  - destruct (V NZ) as [E A]. rewrite E in C. injection C as <-.
    cbn [with_results frame battery_current_mA]. auto.
Qed.

Lemma battery_current_value_witness :
  exists v s1 p sv s3,
    ina219_get_bus_voltage ErrCell scenario_B = Done (Some v) s1 /\
    percent_charged (frame scenario_B_end) = Some p /\
    ina219_get_shunt_voltage ErrCell (with_voltage_percent v p s1)
      = Done (Some sv) s3 /\
    - 327 <= sv <= 327 /\
    shunt_milliohms (self scenario_B) <> 0 /\
    battery_current_mA (frame scenario_B_end)
    = Some (Z.quot (sv * 1000) (shunt_milliohms (self scenario_B))) /\
    Z.abs (Z.quot (sv * 1000) (shunt_milliohms (self scenario_B))) <= 327000.
Proof.
  apply (battery_current_value ErrCell scenario_B scenario_B_end).
  vm_compute. reflexivity.
Defined.

(** Division by a zero [double] gives no [int]. *)
Lemma seconds_expr_zero_current rc : seconds_expr rc 0 = None.
Proof.
  unfold seconds_expr. destruct (c_mul 3600 rc) as [n |]; [| reflexivity].
  change (double_of_int 0) with (S754_zero false).
  destruct (double_of_int n) as [sx | sx | | sx mx ex]; reflexivity.
Qed.

Lemma minutes_expr_zero_current o st p :
  st <> INA219_FULLY_CHARGED -> minutes_expr o st p 0 = None.
Proof.
  intros Hst. unfold minutes_expr.
  destruct st; [contradiction | |]; cbn [status_eqb Z.leb Z.compare];
    (destruct (c_sub 100 p) as [q |]; [| reflexivity]);
    (destruct (capacity_expr o q) as [rc |]; [| reflexivity]);
    now rewrite seconds_expr_zero_current.
Qed.

(** X9.  A current of exactly zero, below 99 % and with a minimum
    charging current that is not positive, is classified DISCHARGING and
    then takes the charging branch of the time estimate ([mA >= 0]): the
    division by [(double) 0] gives no [int], and the status query is
    undefined. *)
Theorem zero_current_undefined error s v s1 q sv s3 :
  min_charging_current (self s) <= 0 ->
  ina219_get_bus_voltage error s = Done (Some v) s1 ->
  percent_expr (self s) v = Some q ->
  clamp_percent q < 99 ->
  ina219_get_shunt_voltage error (with_voltage_percent v (clamp_percent q) s1)
    = Done (Some sv) s3 ->
  current_expr (self s) sv = Some 0 ->
  classification (self s) (clamp_percent q) 0 = INA219_DISCHARGING /\
  ina219_get_status error s = Stop Undefined.
Proof.
  intros Hmin B P Hp S C.
  assert (K : classification (self s) (clamp_percent q) 0 = INA219_DISCHARGING).
  { unfold classification.
    destruct (Z.leb_spec 99 (clamp_percent q)); [lia |].
    destruct (Z.ltb_spec 0 (min_charging_current (self s))); [lia |].
    reflexivity. }
  split; [exact K |].
  rewrite get_status_unfold, B, P. cbv zeta. rewrite S, C, K.
  now rewrite minutes_expr_zero_current.
Qed.

Lemma zero_current_undefined_witness :
  classification (self idle) (clamp_percent 50) 0 = INA219_DISCHARGING /\
  ina219_get_status ErrCell idle = Stop Undefined.
Proof.
  apply (zero_current_undefined ErrCell idle 7132
           (mkState (after_transfer BUS_REG (kernel idle))
                    no_minimum_config blank_frame)
           50 0
           (mkState (after_transfer SHUNT_REG
                       (after_transfer BUS_REG (kernel idle)))
                    no_minimum_config
                    (mkFrame None (Some 7132) (Some 50) None None [])));
    first [vm_compute; reflexivity | vm_compute; discriminate].
Defined.

(** X10.  With a positive minimum charging current, as in main.c, a
    status query never reports DISCHARGING: every current that is zero or
    negative is below the minimum, so it is reported as FULLY_CHARGED
    with 0 minutes. *)
Theorem positive_minimum_never_discharging error s s' :
  0 < min_charging_current (self s) ->
  ina219_get_status error s = Done true s' ->
  charge_status (frame s') <> Some INA219_DISCHARGING /\
  forall c,
    battery_current_mA (frame s') = Some c -> c <= 0 ->
    charge_status (frame s') = Some INA219_FULLY_CHARGED /\
    minutes (frame s') = Some 0.
Proof.
  intros Hmin H. apply get_status_cases in H.
  destruct H as [[? _] | (v & s1 & q & B & P & [[? _] | H])]; try discriminate.
  destruct H as (sv & s3 & mA & mins & _ & _ & Mi & _ & ->).
  cbn [with_results frame charge_status battery_current_mA minutes].
  unfold classification in *.
  destruct (Z.leb_spec 99 (clamp_percent q));
    destruct (Z.ltb_spec mA (min_charging_current (self s)));
    destruct (Z.ltb_spec 0 mA); cbn [orb] in *;
    (split; [discriminate || lia |]); intros c [= <-] Hc; try lia;
    cbn in Mi; injection Mi as <-; auto.
Qed.

(** Scenario B of the specification: 300 mA out of the battery. *)
Lemma positive_minimum_never_discharging_witness :
  charge_status (frame scenario_B_end) <> Some INA219_DISCHARGING /\
  forall c,
    battery_current_mA (frame scenario_B_end) = Some c -> c <= 0 ->
    charge_status (frame scenario_B_end) = Some INA219_FULLY_CHARGED /\
    minutes (frame scenario_B_end) = Some 0.
Proof.
  apply (positive_minimum_never_discharging ErrCell scenario_B scenario_B_end).
  - vm_compute. reflexivity.
  - vm_compute. reflexivity.
Defined.

(** X11.  A status query that returns [TRUE] has written all five of the
    caller's variables, the voltage being the bus voltage read; when the
    status is FULLY_CHARGED the minutes are 0. *)
Theorem success_writes_every_result error s s' :
  ina219_get_status error s = Done true s' ->
  exists st v p c m s1,
    ina219_get_bus_voltage error s = Done (Some v) s1 /\
    charge_status (frame s') = Some st /\
    battery_voltage_mv (frame s') = Some v /\
    percent_charged (frame s') = Some p /\
    battery_current_mA (frame s') = Some c /\
    minutes (frame s') = Some m /\
    (st = INA219_FULLY_CHARGED -> m = 0).
Proof.
  intros H. apply get_status_cases in H.
  destruct H as [[? _] | (v & s1 & q & B & P & [[? _] | H])]; try discriminate.
  destruct H as (sv & s3 & mA & mins & _ & _ & Mi & _ & ->).
  eexists _, v, _, _, _, s1. split; [exact B |].
  cbn [with_results frame charge_status battery_voltage_mv percent_charged
       battery_current_mA minutes].
  do 5 (split; [reflexivity |]).
  intros E. rewrite E in Mi. cbn in Mi. now injection Mi.
Qed.

Lemma success_writes_every_result_witness :
  exists st v p c m s1,
    ina219_get_bus_voltage ErrCell scenario_C = Done (Some v) s1 /\
    charge_status (frame scenario_C_end) = Some st /\
    battery_voltage_mv (frame scenario_C_end) = Some v /\
    percent_charged (frame scenario_C_end) = Some p /\
    battery_current_mA (frame scenario_C_end) = Some c /\
    minutes (frame scenario_C_end) = Some m /\
    (st = INA219_FULLY_CHARGED -> m = 0).
Proof.
  apply (success_writes_every_result ErrCell scenario_C scenario_C_end).
  vm_compute. reflexivity.
Defined.

(** *** The sign of the time estimate *)

(** Rounding keeps the sign it is given. *)
Lemma binary_round_aux_sign sx mx ex lx :
  match binary_round_aux 53 1024 sx mx ex lx with
  | S754_zero s | S754_infinity s | S754_finite s _ _ => s = sx
  | S754_nan => True
  end.
Proof.
  unfold binary_round_aux.
  destruct (shr_fexp 53 1024 mx ex lx) as [mrs' e'].
  destruct (shr_fexp 53 1024 _ e' loc_Exact) as [mrs'' e''].
  destruct (shr_m mrs'') as [| m | m]; [reflexivity | | exact I].
  destruct (e'' <=? 1024 - 53); reflexivity.
Qed.

Lemma double_of_int_sign n :
  0 <= n ->
  match double_of_int n with
  | S754_zero s | S754_infinity s | S754_finite s _ _ => s = false
  | S754_nan => True
  end.
Proof.
  intros Hn. unfold double_of_int, binary_normalize.
  destruct n as [| m | m]; [reflexivity | | lia].
  unfold binary_round.
  destruct (shl_align m 0 _) as [mz ez].
  apply binary_round_aux_sign.
Qed.

Lemma int_of_double_sign x v :
  match x with
  | S754_zero s | S754_infinity s | S754_finite s _ _ => s = false
  | S754_nan => True
  end ->
  int_of_double x = Some v -> 0 <= v.
Proof.
  destruct x as [s | s | | s m e]; cbn [int_of_double]; intros Hs;
    try discriminate.
  - intros [= <-]. lia.
  - subst s. intros H. apply checked_Some in H. destruct H as [-> _].
    destruct (Z.leb_spec 0 e).
    + apply Z.mul_nonneg_nonneg; [lia | apply Z.pow_nonneg; lia].
    + apply Z.div_pos; [lia |]. apply Z.pow_pos_nonneg; lia.
Qed.

(** The quotient of two [int]s that are not negative, as a [double]
    converted back to [int], is not negative. *)
Lemma seconds_expr_sign rc mA sec :
  0 <= rc -> 0 <= mA -> seconds_expr rc mA = Some sec -> 0 <= sec.
Proof.
  intros Hrc HmA. unfold seconds_expr, c_mul.
  destruct (checked (3600 * rc)) as [n |] eqn:N; [| discriminate].
  apply checked_Some in N. destruct N as [-> _].
  pose proof (double_of_int_sign (3600 * rc) ltac:(lia)) as Sx.
  pose proof (double_of_int_sign mA HmA) as Sy.
  apply int_of_double_sign. unfold double_div.
  destruct (double_of_int (3600 * rc)) as [sx | sx | | sx mx ex];
    destruct (double_of_int mA) as [sy | sy | | sy my ey];
    cbn [SFdiv]; try exact I; subst; try reflexivity.
  destruct (SFdiv_core_binary 53 1024 _ _ _ _) as [[mz ez] lz].
  pose proof (binary_round_aux_sign (xorb false false) mz ez lz) as R.
  destruct (binary_round_aux 53 1024 _ mz ez lz); auto.
Qed.

Lemma capacity_expr_sign o q rc :
  0 <= battery_capacity o -> 0 <= q -> capacity_expr o q = Some rc -> 0 <= rc.
Proof.
  intros Hc Hq. unfold capacity_expr, c_mul, c_div.
  destruct (checked (q * battery_capacity o)) as [n |] eqn:N; [| discriminate].
  apply checked_Some in N. destruct N as [-> _]. cbn [Z.eqb].
  intros H. apply checked_Some in H. destruct H as [-> _].
  apply Z.quot_pos; nia.
Qed.

Lemma minutes_expr_sign o st p mA mins :
  0 <= battery_capacity o -> 0 <= p <= 100 ->
  minutes_expr o st p mA = Some mins -> 0 <= mins.
Proof.
  intros Hc Hp. unfold minutes_expr.
  destruct (status_eqb st INA219_FULLY_CHARGED); [intros [= <-]; lia |].
  destruct (Z.leb_spec 0 mA).
  - destruct (c_sub 100 p) as [q |] eqn:Q; [| discriminate].
    apply checked_Some in Q. destruct Q as [-> _].
    destruct (capacity_expr o (100 - p)) as [rc |] eqn:R; [| discriminate].
    apply capacity_expr_sign in R; [| assumption | lia].
    destruct (seconds_expr rc mA) as [sec |] eqn:S; [| discriminate].
    apply seconds_expr_sign in S; [| assumption | assumption].
    intros [= <-]. apply Z.quot_pos; lia.
  - destruct (capacity_expr o p) as [rc |] eqn:R; [| discriminate].
    apply capacity_expr_sign in R; [| assumption | lia].
    destruct (c_neg mA) as [n |] eqn:N; [| discriminate].
    apply checked_Some in N. destruct N as [-> _].
    destruct (seconds_expr rc (- mA)) as [sec |] eqn:S; [| discriminate].
    apply seconds_expr_sign in S; [| assumption | lia].
    intros [= <-]. apply Z.quot_pos; lia.
Qed.

(** X12.  With a battery capacity between 0 and 596523 mA.h, for which
    [3600 * remaining_capacity] is an [int], a status query that returns
    [TRUE] with the status FULLY_CHARGED or with a current other than
    zero stores minutes that are not negative, in the charging as in the
    discharging branch, the division in [double] included.  (A greater
    capacity can overflow the product, and a zero current outside
    FULLY_CHARGED is the undefined division of X9.) *)
Theorem minutes_not_negative error s s' :
  0 <= battery_capacity (self s) <= 596523 ->
  ina219_get_status error s = Done true s' ->
  charge_status (frame s') = Some INA219_FULLY_CHARGED \/
  battery_current_mA (frame s') <> Some 0 ->
  exists m, minutes (frame s') = Some m /\ 0 <= m.
Proof.
  intros Hc H _. apply get_status_cases in H.
  destruct H as [[? _] | (v & s1 & q & B & P & [[? _] | H])]; try discriminate.
  destruct H as (sv & s3 & mA & mins & _ & _ & Mi & _ & ->).
  exists mins. split; [reflexivity |].
  eapply minutes_expr_sign;
    [exact (proj1 Hc) | apply clamp_percent_range | exact Mi].
Qed.

Lemma minutes_not_negative_witness :
  exists m, minutes (frame scenario_A_end) = Some m /\ 0 <= m.
Proof.
  apply (minutes_not_negative ErrCell scenario_A scenario_A_end).
  - vm_compute. split; discriminate.
  - vm_compute. reflexivity.
  - right. vm_compute. discriminate.
Defined.

(* ====================================================================== *)
(** ** Further properties of the transport handle *)
(* ====================================================================== *)

Lemma fd_lookup_remove_same d t : fd_lookup d (fd_remove d t) = None.
Proof.
  induction t as [| [x b] t IH]; [reflexivity |]. cbn.
  destruct (Z.eqb_spec x d); [exact IH |]. cbn.
  destruct (Z.eqb_spec x d); [contradiction | exact IH].
Qed.

Lemma fd_lookup_remove_other d x t :
  x <> d -> fd_lookup x (fd_remove d t) = fd_lookup x t.
Proof.
  intros Hx. induction t as [| [y b] t IH]; [reflexivity |]. cbn.
  destruct (Z.eqb_spec y d) as [-> | Hy].
  - destruct (Z.eqb_spec d x); [congruence | exact IH].
  - cbn. now rewrite IH.
Qed.

Lemma with_fd_same o : with_fd (fd o) o = o.
Proof. now destruct o. Qed.

(** [ina219_init] with the monad unfolded. *)
Lemma init_unfold error s :
  ina219_init error s =
  let k := kernel s in
  let o := self s in
  match next_reply k with
  | Fail e =>
      match error with
      | ErrNull => Stop Undefined
      | ErrCell =>
          Done false
            (mkState (set_errno e (log (SysOpen (i2c_dev o)) k))
               (with_fd (-1) o)
               (frame_with_errors
                  [init_message "Can't open I2C device: " k e] (frame s)))
      end
  | Ok n _ =>
      let d := Z.of_N n in
      let k1 := set_fds ((d, None) :: fds k) (log (SysOpen (i2c_dev o)) k) in
      match next_reply k1 with
      | Fail e =>
          match error with
          | ErrNull => Stop Undefined
          | ErrCell =>
              Done false
                (mkState (set_errno e (log (SysIoctlSlave d (i2c_addr o)) k1))
                   (with_fd d o)
                   (frame_with_errors
                      [init_message "Can't intialize I2C device: " k e]
                      (frame s)))
          end
      | Ok _ _ =>
          Done true
            (mkState
               (set_fds ((d, Some (i2c_addr o)) :: fd_remove d (fds k1))
                  (log (SysIoctlSlave d (i2c_addr o)) k1))
               (with_fd d o) (frame s))
      end
  end.
Proof.
  cbv zeta. unfold ina219_init. step.
  unfold bind at 1, syscall, sys_open.
  destruct (next_reply (kernel s)) as [e | n p]; cbv beta iota.
  - step. cbn [Z.leb Z.compare].
    destruct error; [reflexivity |]. repeat step. reflexivity.
  - step. destruct (Z.leb_spec 0 (Z.of_N n)); [| lia].
    unfold bind at 1, syscall, sys_ioctl_slave.
    cbn [kernel self frame with_fd i2c_addr i2c_dev].
    destruct (next_reply _) as [e | m q]; cbv beta iota.
    + cbn [Z.leb Z.compare].
      destruct error; [reflexivity |]. repeat step. reflexivity.
    + reflexivity.
Qed.

(** [ina219_uninit] with the monad unfolded. *)
Lemma uninit_unfold s :
  ina219_uninit s =
  Done tt
    (mkState (if 0 <=? fd (self s) then sys_close (fd (self s)) (kernel s)
              else kernel s)
             (with_fd (-1) (self s)) (frame s)).
Proof.
  unfold ina219_uninit. step.
  destruct (0 <=? fd (self s)); repeat step; reflexivity.
Qed.

(** X13.  [ina219_uninit] always returns.  It closes the descriptor of an
    open handle (one [close], after which the kernel no longer has it)
    and makes no system call on a closed one; either way the handle is
    closed afterwards, and a second [ina219_uninit] changes nothing. *)
Theorem uninit_closes_once s :
  exists s1,
    ina219_uninit s = Done tt s1 /\
    fd (self s1) = - 1 /\
    (0 <= fd (self s) ->
     trace (kernel s1) = SysClose (fd (self s)) :: trace (kernel s) /\
     fd_lookup (fd (self s)) (fds (kernel s1)) = None) /\
    (fd (self s) < 0 -> kernel s1 = kernel s) /\
    ina219_uninit s1 = Done tt s1.
Proof.
  eexists. split; [apply uninit_unfold |].
  cbn [self kernel fd with_fd].
  split; [reflexivity |]. split; [| split].
  - intros H. destruct (Z.leb_spec 0 (fd (self s))); [| lia].
    split; [reflexivity |]. cbn. apply fd_lookup_remove_same.
  - intros H. destruct (Z.leb_spec 0 (fd (self s))); [lia | reflexivity].
  - rewrite uninit_unfold. reflexivity.
Qed.

(** X14.  Opening and closing undo each other.  On a closed handle, an
    [ina219_init] that returns, successful or not, followed by
    [ina219_uninit], leaves the instance as it was and every descriptor
    of the kernel as it was, provided [open] gave a descriptor that was
    not already in use: the descriptor left open by a failed bind is
    closed too. *)
Theorem init_uninit_round_trip error s b s1 :
  fd (self s) = - 1 ->
  ina219_init error s = Done b s1 ->
  fd_lookup (fd (self s1)) (fds (kernel s)) = None ->
  exists s2,
    ina219_uninit s1 = Done tt s2 /\
    self s2 = self s /\
    forall x, fd_lookup x (fds (kernel s2)) = fd_lookup x (fds (kernel s)).
Proof.
  intros Hc H Hfresh. rewrite init_unfold in H. cbv zeta in H.
  assert (Hs : with_fd (- 1) (self s) = self s)
    by (rewrite <- Hc; apply with_fd_same).
  eexists. split; [apply uninit_unfold |].
  destruct (next_reply (kernel s)) as [e | n p].
  - destruct error; [discriminate |]. injection H as <- <-.
    cbn [self kernel fd with_fd fds set_errno log Z.leb Z.compare].
    split; [exact Hs | reflexivity].
  - destruct (next_reply _) as [e | m q].
    + destruct error; [discriminate |]. injection H as <- <-.
      cbn [self kernel fd with_fd fds set_errno set_fds log] in *.
      destruct (Z.leb_spec 0 (Z.of_N n)); [| lia].
      split; [exact Hs |]. intros x. cbn.
      rewrite Z.eqb_refl.
      destruct (Z.eq_dec x (Z.of_N n)) as [-> | Hx].
      * now rewrite fd_lookup_remove_same, Hfresh.
      * now apply fd_lookup_remove_other.
    + injection H as <- <-.
      cbn [self kernel fd with_fd fds set_errno set_fds log] in *.
      destruct (Z.leb_spec 0 (Z.of_N n)); [| lia].
      split; [exact Hs |]. intros x. cbn.
      rewrite !Z.eqb_refl.
      destruct (Z.eq_dec x (Z.of_N n)) as [-> | Hx].
      * now rewrite !fd_lookup_remove_same, Hfresh.
      * rewrite !fd_lookup_remove_other by assumption. reflexivity.
Qed.

(** The bind fails; [ina219_uninit] then closes descriptor 3. *)
Lemma init_uninit_round_trip_witness :
  exists s2,
    ina219_uninit bind_fails_end = Done tt s2 /\
    self s2 = self bind_fails /\
    forall x, fd_lookup x (fds (kernel s2)) = fd_lookup x (fds (kernel bind_fails)).
Proof.
  apply (init_uninit_round_trip ErrCell bind_fails false bind_fails_end);
    vm_compute; reflexivity.
Defined.

(** X15.  [ina219_init] never closes a descriptor: whatever it returns,
    every descriptor but the one it leaves in [self->fd] is in the kernel
    as before.  Called on a handle that is already open it takes a new
    descriptor, and the old one stays open with no one holding it. *)
Theorem init_never_closes error s b s1 :
  ina219_init error s = Done b s1 ->
  (forall x, x <> fd (self s1) ->
     fd_lookup x (fds (kernel s1)) = fd_lookup x (fds (kernel s))) /\
  (forall d, In (SysClose d) (trace (kernel s1)) ->
     In (SysClose d) (trace (kernel s))).
Proof.
  intros H. rewrite init_unfold in H. cbv zeta in H.
  destruct (next_reply (kernel s)) as [e | n p].
  - destruct error; [discriminate |]. injection H as <- <-.
    cbn [self kernel fd with_fd fds trace set_errno log].
    split; [reflexivity |]. intros d [D | D]; [discriminate | exact D].
  - destruct (next_reply _) as [e | m q].
    + destruct error; [discriminate |]. injection H as <- <-.
      cbn [self kernel fd with_fd fds trace set_errno set_fds log].
      split.
      * intros x Hx. cbn. destruct (Z.eqb_spec (Z.of_N n) x); congruence.
      * intros d [D | [D | D]]; [discriminate | discriminate | exact D].
    + injection H as <- <-.
      cbn [self kernel fd with_fd fds trace set_errno set_fds log].
      split.
      * intros x Hx. cbn. rewrite Z.eqb_refl.
        destruct (Z.eqb_spec (Z.of_N n) x); [congruence |].
        now apply fd_lookup_remove_other.
      * intros d [D | [D | D]]; [discriminate | discriminate | exact D].
Qed.

(** Opened on 3, opened again on 4: 3 is still open and bound. *)
Lemma init_never_closes_witness :
  (forall x, x <> 4 ->
     fd_lookup x (fds (kernel (final_state (ina219_init ErrCell opened_twice)
                                           opened_twice)))
     = fd_lookup x (fds (kernel opened_twice))) /\
  (forall d,
     In (SysClose d)
        (trace (kernel (final_state (ina219_init ErrCell opened_twice)
                                    opened_twice))) ->
     In (SysClose d) (trace (kernel opened_twice))).
Proof.
  apply (init_never_closes ErrCell opened_twice true
           (final_state (ina219_init ErrCell opened_twice) opened_twice)).
  vm_compute. reflexivity.
Defined.

(** X17.  [ina219_init] does not test its [error] argument: called with
    [NULL] it never returns [FALSE].  It returns [TRUE], or the failure
    makes it write its message through the null pointer, which is
    undefined. *)
Theorem init_null_error_never_false s :
  (exists s1, ina219_init ErrNull s = Done true s1) \/
  ina219_init ErrNull s = Stop Undefined.
Proof.
  rewrite init_unfold. cbv zeta.
  destruct (next_reply (kernel s)) as [e | n p]; [now right |].
  destruct (next_reply _) as [e | m q]; [now right |].
  left. eexists. reflexivity.
Qed.

(* ====================================================================== *)
(** ** The demo *)
(* ====================================================================== *)

(** [ina219_init] changes nothing of the instance but [fd]. *)
Lemma init_keeps_config error s b s1 :
  ina219_init error s = Done b s1 ->
  self s1 = with_fd (fd (self s1)) (self s) /\
  (b = false -> error_msgs (frame s1) <> []).
Proof.
  intros H. rewrite init_unfold in H. cbv zeta in H.
  destruct (next_reply (kernel s)) as [e | n p].
  - destruct error; [discriminate |]. injection H as <- <-.
    split; [reflexivity | discriminate].
  - destruct (next_reply _) as [e | m q].
    + destruct error; [discriminate |]. injection H as <- <-.
      split; [reflexivity | discriminate].
    + injection H as <- <-. split; [reflexivity | discriminate].
Qed.

(** With a positive minimum, no current is classified DISCHARGING. *)
Lemma classification_positive_minimum o p mA :
  0 < min_charging_current o -> classification o p mA <> INA219_DISCHARGING.
Proof.
  intros Hmin. unfold classification.
  destruct ((99 <=? p) || (mA <? min_charging_current o)) eqn:E;
    [discriminate |].
  apply orb_false_iff in E. destruct E as [_ E]. apply Z.ltb_ge in E.
  destruct (Z.ltb_spec 0 mA); [discriminate | lia].
Qed.

(** [main] with the monad unfolded. *)
Lemma main_unfold argv0 s :
  main argv0 s =
  let s0 := mkState (kernel s)
              (ina219_create I2C_DEV I2C_ADDR SHUNT_MILLIOHMS
                 BATTERY_VOLTAGE_0_PERCENT BATTERY_VOLTAGE_100_PERCENT
                 BATTERY_CAPACITY MIN_CHARGING_CURRENT)
              (mkFrame None None None None None []) in
  match ina219_init ErrCell s0 with
  | Done true s1 =>
      match ina219_get_status ErrCell s1 with
      | Done true s2 =>
          (st <- load charge_status ;;
           first <- match st with
                    | INA219_FULLY_CHARGED =>
                        ret (mkPrint Stdout ("Fully charged" ++ newline) [])
                    | INA219_CHARGING =>
                        m <- load minutes ;;
                        ret (mkPrint Stdout
                               ("Charging, %d minutes until fully charged"
                                ++ newline) [ArgInt m])
                    | INA219_DISCHARGING =>
                        m <- load minutes ;;
                        ret (mkPrint Stdout
                               ("Discharging, %d minutes left" ++ newline)
                               [ArgInt m])
                    end ;;
           mV <- load battery_voltage_mv ;;
           mA <- load battery_current_mA ;;
           p <- load percent_charged ;;
           ret (0, [first;
                    mkPrint Stdout ("Battery voltage: %.2f V" ++ newline)
                      [ArgDouble (double_div (double_of_int mV)
                                             (double_of_int 1000))];
                    mkPrint Stdout ("Battery current: %d mA" ++ newline)
                      [ArgInt mA];
                    mkPrint Stdout ("Battery charge: %.d %%" ++ newline)
                      [ArgInt p]])) s2
      | Done false s2 =>
          (msg <- load_error ;;
           ret (0, [mkPrint Stderr ("%s: %s" ++ newline)
                      [ArgString argv0; ArgString msg]])) s2
      | Stop c => Stop c
      end
  | Done false s1 =>
      (msg <- load_error ;;
       ret (0, [mkPrint Stderr ("Can't set up INA219: %s" ++ newline)
                  [ArgString msg]])) s1
  | Stop c => Stop c
  end.
Proof.
  cbv zeta. unfold main. do 2 step.
  unfold bind at 1.
  destruct (ina219_init ErrCell _) as [[|] s1 | c]; [| reflexivity | reflexivity].
  unfold bind at 1.
  destruct (ina219_get_status ErrCell s1) as [[|] s2 | c]; reflexivity.
Qed.

(** X18.  The demo returns exit status 0 on every path, also when it
    reports a failure.  A run that reports a failure prints exactly one
    line, on standard error; a run that reports a status prints exactly
    four lines, on standard output. *)
Theorem main_exit_status argv0 s code out s' :
  main argv0 s = Done (code, out) s' ->
  code = 0 /\
  ((List.length out = 1%nat /\ forallb is_stdout out = false) \/
   (List.length out = 4%nat /\ forallb is_stdout out = true)).
Proof.
  rewrite main_unfold. cbv zeta.
  destruct (ina219_init ErrCell _) as [[|] s1 | c]; [| | discriminate].
  - destruct (ina219_get_status ErrCell s1) as [[|] s2 | c] eqn:G;
      [| | discriminate].
    + apply get_status_cases in G.
      destruct G as [[? _] | (v & sb & q & _ & _ & [[? _] | G])];
        try discriminate.
      destruct G as (sv & s3 & mA & mins & _ & _ & _ & _ & ->).
      unfold with_results. step.
      destruct (classification _ _ _); repeat step;
        intros [= <- <- _]; split; [reflexivity | right; split; reflexivity
                                   | reflexivity | right; split; reflexivity
                                   | reflexivity | right; split; reflexivity].
    + unfold bind, load_error.
      destruct (error_msgs (frame s2)); [discriminate |].
      intros [= <- <- _]. split; [reflexivity | left; split; reflexivity].
  - unfold bind, load_error.
    destruct (error_msgs (frame s1)); [discriminate |].
    intros [= <- <- _]. split; [reflexivity | left; split; reflexivity].
Qed.

(** No device file: one line on standard error, exit status 0. *)
Lemma main_exit_status_witness :
  0 = 0 /\
  ((List.length demo_no_device_output = 1%nat /\
    forallb is_stdout demo_no_device_output = false) \/
   (List.length demo_no_device_output = 4%nat /\
    forallb is_stdout demo_no_device_output = true)).
Proof.
  apply (main_exit_status "ina219" demo_no_device 0 demo_no_device_output
           (final_state (main "ina219" demo_no_device) demo_no_device)).
  vm_compute. reflexivity.
Defined.

(** X19.  The demo never prints its "Discharging" line, whatever the bus
    answers: its minimum charging current is 10 mA, so a battery that is
    being drained is reported as "Fully charged". *)
Theorem main_never_prints_discharging argv0 s code out s' :
  main argv0 s = Done (code, out) s' ->
  forall p, In p out -> format p <> ("Discharging, %d minutes left" ++ newline)%string.
Proof.
  rewrite main_unfold. cbv zeta.
  destruct (ina219_init ErrCell _) as [[|] s1 | c] eqn:I; [| | discriminate].
  - apply init_keeps_config in I. destruct I as [Cfg _].
    destruct (ina219_get_status ErrCell s1) as [[|] s2 | c] eqn:G;
      [| | discriminate].
    + apply get_status_cases in G.
      destruct G as [[? _] | (v & sb & q & _ & _ & [[? _] | G])];
        try discriminate.
      destruct G as (sv & s3 & mA & mins & _ & _ & _ & _ & ->).
      assert (K : classification (self s1) (clamp_percent q) mA
                  <> INA219_DISCHARGING).
      { apply classification_positive_minimum. rewrite Cfg. cbn. reflexivity. }
      unfold with_results. step.
      destruct (classification _ _ _); [| | contradiction]; repeat step;
        intros [= _ <- _] p [<- | [<- | [<- | [<- | []]]]]; discriminate.
    + unfold bind, load_error.
      destruct (error_msgs (frame s2)); [discriminate |].
      intros [= _ <- _] p [<- | []]. discriminate.
  - unfold bind, load_error.
    destruct (error_msgs (frame s1)); [discriminate |].
    intros [= _ <- _] p [<- | []]. discriminate.
Qed.

(** 300 mA out of the battery: the demo prints "Fully charged". *)
Lemma main_never_prints_discharging_witness :
  main "ina219" demo_discharging
  = Done (0, demo_discharging_output)
         (final_state (main "ina219" demo_discharging) demo_discharging) /\
  forall p, In p demo_discharging_output ->
    format p <> ("Discharging, %d minutes left" ++ newline)%string.
Proof.
  split; [vm_compute; reflexivity |].
  apply (main_never_prints_discharging "ina219" demo_discharging 0
           demo_discharging_output
           (final_state (main "ina219" demo_discharging) demo_discharging)).
  vm_compute. reflexivity.
Defined.
